(** * aha: the [check connection] command

    A shallow embedding of [cmd/check/connection.go]: the four probe
    kinds behind the [Connection] interface, the factory [createResource]
    and the loop of [newConnection]'s [RunE] that turns every configured
    connection into one table row.

    The client libraries (net/http, database/sql, go-redis, Pub/Sub), the
    configuration reader (viper), [time.ParseDuration] and go-pretty's
    colours are outside the repository.  They are taken as a [World]: a
    record of functions giving the answer of each library call.  Every
    call to a client library is also written to a log, so that "no call
    was made" is a statement about the log. *)

From Stdlib Require Import ZArith String Ascii List DecimalString.
From stdpp Require Import base option list gmap strings.

Open Scope Z_scope.

(** ** Values shared by the whole package *)

(** A Go [error] is only ever observed through its message here (the [%v]
    verb of [fmt.Errorf] and [Sprintf]). *)
Definition error : Type := string.

(** A Go pair [(value, err)] of which exactly one side is meaningful. *)
Inductive result (A : Type) : Type :=
| Ok (a : A)
| Err (err : error).
Arguments Ok {A} a.
Arguments Err {A} err.

(** The [%d] verb applied to an [int]: signed decimal digits. *)
Definition fmt_d (z : Z) : string := NilZero.string_of_int (Z.to_int z).

(** The colours of [github.com/jedib0t/go-pretty/v6/text] that the command uses. *)
Module text.
Inductive Color : Type := FgRed | FgGreen | FgYellow.
End text.

(** A [table.Row] is a slice of cells; the command only stores strings. *)
Definition Row : Type := list string.

(** ** Calls to the client libraries *)

Inductive ClientOption : Type :=
| WithCredentialsJSON (p : string).

Inductive Call : Type :=
| HTTPGet (Timeout : Z) (url : string)      (* (&http.Client{Timeout}).Get(url) *)
| BodyClose                                 (* resp.Body.Close() *)
| SQLOpen (driverName dsn : string)         (* sql.Open(driverName, dsn) *)
| DBPing                                    (* db.Ping() *)
| DBClose                                   (* db.Close() *)
| RedisNewClient (Addr Password : string) (DB : Z)  (* redis.NewClient(&redis.Options{...}) *)
| RedisPing                                 (* client.Ping(ctx).Err() *)
| RedisClose                                (* client.Close() *)
| PubSubNewClient (projectID : string) (opts : list ClientOption)
                                            (* pubsub.NewClient(ctx, projectID, opts...) *)
| TopicExists (id : string)                 (* client.Topic(id).Exists(ctx) *)
| PubSubClose.                              (* client.Close() *)

(** What viper holds once a configuration file has been read. *)
Record Viper : Type := {
  GetStringMap : string -> gset string;   (* only the keys of the map are used *)
  GetString : string -> string;
  GetBool : string -> bool;
  GetInt : string -> Z
}.

(** ** The descriptor read from the configuration *)

Module ConnectionConfig.
Record t : Type := mk {
  Type_ : string;
  IsChecked : bool;
  Host : string;
  Port : Z;
  User : string;
  Password : string;
  Database : string;
  URL : string;
  Method : string;
  Timeout : string;
  DB : Z;
  ProjectID : string;
  CredentialsJSON : string;
  TopicID : string
}.
End ConnectionConfig.

(** ** The world outside the repository

    Each answer of a client library may depend on every call made before it
    (the first argument), so a server may answer the same request
    differently at different times. *)
Record World : Type := {
  (* time.ParseDuration: nanoseconds, or an error *)
  ParseDuration : string -> result Z;
  (* client.Get: the response's StatusCode, or a transport error *)
  client_Get : list Call -> Z -> string -> result Z;
  sql_Open : list Call -> string -> string -> option error;
  DB_Ping : list Call -> option error;
  redis_Ping : list Call -> option error;
  pubsub_NewClient : list Call -> string -> list ClientOption -> option error;
  Topic_Exists : list Call -> string -> result bool;
  (* text.Color.Sprint *)
  Sprint : text.Color -> string -> string;
  (* viper: SetConfigFile, SetConfigType("yaml"), ReadInConfig *)
  ReadInConfig : string -> result Viper;
  (* the order in which [range] visits a map: any enumeration of it *)
  MapRange : gmap string ConnectionConfig.t -> list (string * ConnectionConfig.t);
  MapRange_perm : forall m, MapRange m ≡ₚ map_to_list m
}.

(** ** State and the monad of the command *)

Record Table : Type := {
  header : list Row;
  rows : list Row
}.

Record State : Type := {
  calls : list Call;        (* every client-library call so far, oldest first *)
  t : Table;                (* the table writer of RunE *)
  stdout : list Table       (* what Render was given to print *)
}.

(** A computation either returns or panics (nil dereference). *)
Inductive Outcome (A : Type) : Type :=
| Done (a : A) (s : State)
| Panic (s : State).
Arguments Done {A} a s.
Arguments Panic {A} s.

Definition M (A : Type) : Type := State -> Outcome A.

#[global] Instance M_ret : MRet M := fun A a s => Done a s.
#[global] Instance M_bind : MBind M := fun A B f m s =>
  match m s with
  | Done a s' => f a s'
  | Panic s' => Panic s'
  end.

Definition panic {A : Type} : M A := fun s => Panic s.

(** Make a library call: log it and return the world's answer, which is
    computed from the calls made before this one. *)
Definition extern {A : Type} (c : Call) (answer : list Call -> A) : M A :=
  fun s => Done (answer (calls s))
                {| calls := calls s ++ [c]; t := t s; stdout := stdout s |}.

(** A library call whose result is not used. *)
Definition log (c : Call) : M unit := extern c (fun _ => tt).

(** ** The probes *)

Module HTTPConfig.
Record t : Type := mk {
  URL : string;
  Method : string;
  Timeout : Z           (* time.Duration, nanoseconds *)
}.

Definition CheckConnection (w : World) (c : t) : M (option error) :=
  resp ← extern (HTTPGet (Timeout c) (URL c))
                (fun h => client_Get w h (Timeout c) (URL c));
  match resp with
  | Err err => mret (Some ("HTTP connection failed: " +:+ err))
  | Ok StatusCode =>
      let ret :=
        if StatusCode >=? 400
        then Some ("HTTP request failed with status: " +:+ fmt_d StatusCode)
        else None in
      log BodyClose;;                     (* defer resp.Body.Close() *)
      mret ret
  end.

Definition GetDescription (c : t) : string :=
  Method c +:+ ":" +:+ URL c.
End HTTPConfig.

Module MySQLConfig.
Record t : Type := mk {
  Host : string;
  Port : Z;
  User : string;
  Password : string;
  Database : string
}.

(* "%s:%s@tcp(%s:%d)/%s?timeout=5s" *)
Definition dsn (c : t) : string :=
  User c +:+ ":" +:+ Password c +:+ "@tcp(" +:+ Host c +:+ ":"
    +:+ fmt_d (Port c) +:+ ")/" +:+ Database c +:+ "?timeout=5s".

Definition CheckConnection (w : World) (c : t) : M (option error) :=
  o ← extern (SQLOpen "mysql" (dsn c)) (fun h => sql_Open w h "mysql" (dsn c));
  match o with
  | Some err => mret (Some ("failed to connect to MySQL: " +:+ err))
  | None =>
      p ← extern DBPing (DB_Ping w);
      let ret :=
        match p with
        | Some err => Some ("MySQL ping failed: " +:+ err)
        | None => None
        end in
      log DBClose;;                       (* defer db.Close() *)
      mret ret
  end.

(* "mysql://%s@%s:%d/%s" *)
Definition GetDescription (c : t) : string :=
  "mysql://" +:+ User c +:+ "@" +:+ Host c +:+ ":" +:+ fmt_d (Port c)
    +:+ "/" +:+ Database c.
End MySQLConfig.

Module RedisConfig.
Record t : Type := mk {
  Host : string;
  Port : Z;
  Password : string;
  DB : Z
}.

Definition CheckConnection (w : World) (c : t) : M (option error) :=
  log (RedisNewClient (Host c +:+ ":" +:+ fmt_d (Port c)) (Password c) (DB c));;
  p ← extern RedisPing (redis_Ping w);
  let ret :=
    match p with
    | Some err => Some ("Redis ping failed: " +:+ err)
    | None => None
    end in
  log RedisClose;;                        (* defer client.Close() *)
  mret ret.

(* "redis://%s:%d/%d" *)
Definition GetDescription (c : t) : string :=
  "redis://" +:+ Host c +:+ ":" +:+ fmt_d (Port c) +:+ "/" +:+ fmt_d (DB c).
End RedisConfig.

Module PubSubConfig.
Record t : Type := mk {
  ProjectID : string;
  CredentialsJSON : string;
  TopicID : string
}.

Definition CheckConnection (w : World) (c : t) : M (option error) :=
  let opts :=
    if negb (String.eqb (CredentialsJSON c) "")
    then [WithCredentialsJSON (CredentialsJSON c)]
    else [] in
  o ← extern (PubSubNewClient (ProjectID c) opts)
             (fun h => pubsub_NewClient w h (ProjectID c) opts);
  match o with
  | Some err => mret (Some ("failed to create Pub/Sub client: " +:+ err))
  | None =>
      e ← extern (TopicExists (TopicID c)) (fun h => Topic_Exists w h (TopicID c));
      let ret :=
        match e with
        | Err err => Some ("failed to check topic existence: " +:+ err)
        | Ok exists_ =>
            if negb exists_
            then Some ("topic " +:+ TopicID c +:+ " does not exist")
            else None
        end in
      log PubSubClose;;                   (* defer client.Close() *)
      mret ret
  end.

(* "pubsub://%s/topics/%s" *)
Definition GetDescription (c : t) : string :=
  "pubsub://" +:+ ProjectID c +:+ "/topics/" +:+ TopicID c.
End PubSubConfig.

(** ** The [Connection] interface and [Resource] *)

(** An interface value holds one of the four probe types that implement
    [CheckConnection] and [GetDescription]; the nil interface is [None]
    in [Resource.Config]. *)
Module Connection.
Inductive t : Type :=
| MySQL (c : MySQLConfig.t)
| HTTP (c : HTTPConfig.t)
| Redis (c : RedisConfig.t)
| PubSub (c : PubSubConfig.t).

Definition CheckConnection (w : World) (i : t) : M (option error) :=
  match i with
  | MySQL c => MySQLConfig.CheckConnection w c
  | HTTP c => HTTPConfig.CheckConnection w c
  | Redis c => RedisConfig.CheckConnection w c
  | PubSub c => PubSubConfig.CheckConnection w c
  end.

Definition GetDescription (i : t) : string :=
  match i with
  | MySQL c => MySQLConfig.GetDescription c
  | HTTP c => HTTPConfig.GetDescription c
  | Redis c => RedisConfig.GetDescription c
  | PubSub c => PubSubConfig.GetDescription c
  end.
End Connection.

Module Resource.
Record t : Type := mk {
  Type_ : string;
  IsChecked : bool;
  Config : option Connection.t
}.

(* var resource Resource *)
Definition zero : t := {| Type_ := ""; IsChecked := false; Config := None |}.

Definition set_Type (x : string) (r : t) : t :=
  {| Type_ := x; IsChecked := IsChecked r; Config := Config r |}.
Definition set_IsChecked (x : bool) (r : t) : t :=
  {| Type_ := Type_ r; IsChecked := x; Config := Config r |}.
Definition set_Config (x : Connection.t) (r : t) : t :=
  {| Type_ := Type_ r; IsChecked := IsChecked r; Config := Some x |}.
End Resource.

(** Calling a method through [resource.Config] panics when the interface is nil. *)
Definition Config_GetDescription (resource : Resource.t) : M string :=
  match Resource.Config resource with
  | Some i => mret (Connection.GetDescription i)
  | None => panic
  end.

Definition Config_CheckConnection (w : World) (resource : Resource.t) : M (option error) :=
  match Resource.Config resource with
  | Some i => Connection.CheckConnection w i
  | None => panic
  end.

(** ** Reading the configuration *)

Definition parseConfig (w : World) (configPath : string)
  : result (gmap string ConnectionConfig.t) :=
  match ReadInConfig w configPath with
  | Err err => Err ("failed to read config file: " +:+ err)
  | Ok v =>
      let connKeys := GetStringMap v "check.connections" in
      Ok (foldr
            (fun name connections =>
               let prefix := "check.connections." +:+ name in
               <[ name :=
                  {| ConnectionConfig.Type_ := GetString v (prefix +:+ ".type");
                     ConnectionConfig.IsChecked := GetBool v (prefix +:+ ".is_checked");
                     ConnectionConfig.Host := GetString v (prefix +:+ ".host");
                     ConnectionConfig.Port := GetInt v (prefix +:+ ".port");
                     ConnectionConfig.User := GetString v (prefix +:+ ".user");
                     ConnectionConfig.Password := GetString v (prefix +:+ ".password");
                     ConnectionConfig.Database := GetString v (prefix +:+ ".database");
                     ConnectionConfig.URL := GetString v (prefix +:+ ".url");
                     ConnectionConfig.Method := GetString v (prefix +:+ ".method");
                     ConnectionConfig.Timeout := GetString v (prefix +:+ ".timeout");
                     ConnectionConfig.DB := GetInt v (prefix +:+ ".db");
                     ConnectionConfig.ProjectID := GetString v (prefix +:+ ".project_id");
                     ConnectionConfig.CredentialsJSON :=
                       GetString v (prefix +:+ ".credentials_json");
                     ConnectionConfig.TopicID := GetString v (prefix +:+ ".topic_id") |} ]>
               connections)
            ∅ (elements connKeys))
  end.

(** ** The factory *)

Definition createResource (w : World) (name : string) (config : ConnectionConfig.t)
  : result Resource.t :=
  let resource := Resource.zero in
  let resource := Resource.set_Type (ConnectionConfig.Type_ config) resource in
  let resource := Resource.set_IsChecked (ConnectionConfig.IsChecked config) resource in
  if String.eqb (ConnectionConfig.Type_ config) "mysql" then
    Ok (Resource.set_Config
          (Connection.MySQL
             {| MySQLConfig.Host := ConnectionConfig.Host config;
                MySQLConfig.Port := ConnectionConfig.Port config;
                MySQLConfig.User := ConnectionConfig.User config;
                MySQLConfig.Password := ConnectionConfig.Password config;
                MySQLConfig.Database := ConnectionConfig.Database config |})
          resource)
  else if String.eqb (ConnectionConfig.Type_ config) "http" then
    match ParseDuration w (ConnectionConfig.Timeout config) with
    | Err err => Err ("invalid timeout format: " +:+ err)
    | Ok timeout =>
        Ok (Resource.set_Config
              (Connection.HTTP
                 {| HTTPConfig.URL := ConnectionConfig.URL config;
                    HTTPConfig.Method := ConnectionConfig.Method config;
                    HTTPConfig.Timeout := timeout |})
              resource)
    end
  else if String.eqb (ConnectionConfig.Type_ config) "redis" then
    Ok (Resource.set_Config
          (Connection.Redis
             {| RedisConfig.Host := ConnectionConfig.Host config;
                RedisConfig.Port := ConnectionConfig.Port config;
                RedisConfig.Password := ConnectionConfig.Password config;
                RedisConfig.DB := ConnectionConfig.DB config |})
          resource)
  else if String.eqb (ConnectionConfig.Type_ config) "pubsub" then
    Ok (Resource.set_Config
          (Connection.PubSub
             {| PubSubConfig.ProjectID := ConnectionConfig.ProjectID config;
                PubSubConfig.CredentialsJSON := ConnectionConfig.CredentialsJSON config;
                PubSubConfig.TopicID := ConnectionConfig.TopicID config |})
          resource)
  else
    Err ("unsupported resource type: " +:+ ConnectionConfig.Type_ config).

(** ** The table writer *)

Definition NewWriter : M unit := fun s =>
  Done tt {| calls := calls s; t := {| header := []; rows := [] |}; stdout := stdout s |}.

Definition AppendHeader (r : Row) : M unit := fun s =>
  Done tt {| calls := calls s;
             t := {| header := header (t s) ++ [r]; rows := rows (t s) |};
             stdout := stdout s |}.

Definition AppendRow (r : Row) : M unit := fun s =>
  Done tt {| calls := calls s;
             t := {| header := header (t s); rows := rows (t s) ++ [r] |};
             stdout := stdout s |}.

Definition Render : M unit := fun s =>
  Done tt {| calls := calls s; t := t s; stdout := stdout s ++ [t s] |}.

(** ** The command *)

(** The body of [for name, connConfig := range connections]. *)
Definition loop_body (w : World) (name : string) (connConfig : ConnectionConfig.t)
  : M unit :=
  match createResource w name connConfig with
  | Err err =>
      AppendRow [name; ConnectionConfig.Type_ connConfig; "";
                 Sprint w text.FgRed ("Error: " +:+ err)]
  | Ok resource =>
      if negb (Resource.IsChecked resource) then
        desc ← Config_GetDescription resource;
        AppendRow [name; ConnectionConfig.Type_ connConfig; desc;
                   Sprint w text.FgYellow "Skipped"]
      else
        err ← Config_CheckConnection w resource;
        match err with
        | Some err =>
            desc ← Config_GetDescription resource;
            AppendRow [name; ConnectionConfig.Type_ connConfig; desc;
                       Sprint w text.FgRed ("Failed: " +:+ err)]
        | None =>
            desc ← Config_GetDescription resource;
            AppendRow [name; ConnectionConfig.Type_ connConfig; desc;
                       Sprint w text.FgGreen "Connected"]
        end
  end.

Fixpoint range (w : World) (entries : list (string * ConnectionConfig.t)) : M unit :=
  match entries with
  | [] => mret tt
  | (name, connConfig) :: rest => loop_body w name connConfig;; range w rest
  end.

Definition RunE (w : World) : M (option error) :=
  match parseConfig w "cmd/default.yaml" with
  | Err err => mret (Some err)
  | Ok connections =>
      NewWriter;;
      AppendHeader ["Name"; "Type"; "Description"; "Status"];;
      range w (MapRange w connections);;
      Render;;
      mret None
  end.


(** ** Two concrete worlds, for examples

    [plain] prints without colour; [ansi] is the same world on a
    terminal where go-pretty has colours enabled. *)

Definition ESC : string := String (ascii_of_nat 27) EmptyString.
Definition dquote : string := String (ascii_of_nat 34) EmptyString.

(** [Color.EscapeSeq]: ESC, an opening bracket, the colour's number and [m]. *)
Definition EscapeSeq (c : text.Color) : string :=
  ESC +:+ "[" +:+
  match c with
  | text.FgRed => "31"
  | text.FgGreen => "32"
  | text.FgYellow => "33"
  end +:+ "m".

Definition EscapeReset : string := ESC +:+ "[0m".

(** go-pretty's [Sprint] with colours enabled, on a text that holds no
    escape sequence of its own: the text between the colour's sequence
    and the reset sequence. *)
Definition ansi_Sprint (c : text.Color) (s : string) : string :=
  EscapeSeq c +:+ s +:+ EscapeReset.

Definition sample_ParseDuration (s : string) : result Z :=
  if String.eqb s "5s" then Ok 5000000000
  else if String.eqb s "0" then Ok 0
  else Err ("time: invalid duration " +:+ dquote +:+ s +:+ dquote).

Definition sample_Get (h : list Call) (timeout : Z) (url : string) : result Z :=
  if String.eqb url "http://up.test/" then Ok 200
  else if String.eqb url "http://up.test/missing" then Ok 404
  else if String.eqb url "http://up.test/broken" then Ok 500
  else Err "dial tcp: lookup failed: no such host".

Definition sample_Viper : Viper :=
  {| GetStringMap := fun key =>
       if String.eqb key "check.connections" then {[ "db1"; "cache1" ]} else ∅;
     GetString := fun key =>
       if String.eqb key "check.connections.db1.type" then "mysql"
       else if String.eqb key "check.connections.db1.host" then "unreachable"
       else if String.eqb key "check.connections.cache1.type" then "redis"
       else "";
     GetBool := fun key => String.eqb key "check.connections.db1.is_checked";
     GetInt := fun key => 0 |}.

Definition plain : World :=
  {| ParseDuration := sample_ParseDuration;
     client_Get := sample_Get;
     sql_Open := fun _ _ _ => None;
     DB_Ping := fun _ => Some "dial tcp: lookup unreachable: no such host";
     redis_Ping := fun _ => None;
     pubsub_NewClient := fun _ _ opts =>
       match opts with
       | [] => Some "pubsub: could not find default credentials"
       | _ => None
       end;
     Topic_Exists := fun _ id => Ok (String.eqb id "events");
     Sprint := fun _ s => s;
     ReadInConfig := fun _ => Ok sample_Viper;
     MapRange := map_to_list;
     MapRange_perm := fun m => reflexivity (map_to_list m) |}.

Definition ansi : World :=
  {| ParseDuration := ParseDuration plain;
     client_Get := client_Get plain;
     sql_Open := sql_Open plain;
     DB_Ping := DB_Ping plain;
     redis_Ping := redis_Ping plain;
     pubsub_NewClient := pubsub_NewClient plain;
     Topic_Exists := Topic_Exists plain;
     Sprint := ansi_Sprint;
     ReadInConfig := ReadInConfig plain;
     MapRange := MapRange plain;
     MapRange_perm := MapRange_perm plain |}.

Definition s0 : State :=
  {| calls := []; t := {| header := []; rows := [] |}; stdout := [] |}.

Definition descriptor (Type_ : string) (IsChecked : bool) : ConnectionConfig.t :=
  {| ConnectionConfig.Type_ := Type_;
     ConnectionConfig.IsChecked := IsChecked;
     ConnectionConfig.Host := "localhost";
     ConnectionConfig.Port := 3306;
     ConnectionConfig.User := "root";
     ConnectionConfig.Password := "secret";
     ConnectionConfig.Database := "app";
     ConnectionConfig.URL := "http://up.test/";
     ConnectionConfig.Method := "GET";
     ConnectionConfig.Timeout := "5s";
     ConnectionConfig.DB := 0;
     ConnectionConfig.ProjectID := "proj";
     ConnectionConfig.CredentialsJSON := "";
     ConnectionConfig.TopicID := "events" |}.

(** ** States reached from a state *)

Definition add_calls (cs : list Call) (s : State) : State :=
  {| calls := calls s ++ cs; t := t s; stdout := stdout s |}.

Definition add_row (r : Row) (s : State) : State :=
  {| calls := calls s;
     t := {| header := header (t s); rows := rows (t s) ++ [r] |};
     stdout := stdout s |}.

(** The columns of a row. *)
Definition col_Name (r : Row) : string := nth 0 r EmptyString.
Definition col_Type (r : Row) : string := nth 1 r EmptyString.
Definition col_Description (r : Row) : string := nth 2 r EmptyString.
Definition col_Status (r : Row) : string := nth 3 r EmptyString.

(** What one turn of the loop does for a descriptor, started in [s]: the
    state [s1] after the probe (if any) was attempted, and the row that is
    then appended. *)
Inductive turn (w : World) (name : string) (connConfig : ConnectionConfig.t)
  (s : State) : State -> Row -> Prop :=
| turn_Error err :
    createResource w name connConfig = Err err ->
    turn w name connConfig s s
      [name; ConnectionConfig.Type_ connConfig; EmptyString;
       Sprint w text.FgRed ("Error: " +:+ err)]
| turn_Skipped resource i :
    createResource w name connConfig = Ok resource ->
    Resource.Config resource = Some i ->
    Resource.IsChecked resource = false ->
    turn w name connConfig s s
      [name; ConnectionConfig.Type_ connConfig; Connection.GetDescription i;
       Sprint w text.FgYellow "Skipped"]
| turn_Failed resource i err cs :
    createResource w name connConfig = Ok resource ->
    Resource.Config resource = Some i ->
    Resource.IsChecked resource = true ->
    Connection.CheckConnection w i s = Done (Some err) (add_calls cs s) ->
    turn w name connConfig s (add_calls cs s)
      [name; ConnectionConfig.Type_ connConfig; Connection.GetDescription i;
       Sprint w text.FgRed ("Failed: " +:+ err)]
| turn_Connected resource i cs :
    createResource w name connConfig = Ok resource ->
    Resource.Config resource = Some i ->
    Resource.IsChecked resource = true ->
    Connection.CheckConnection w i s = Done None (add_calls cs s) ->
    turn w name connConfig s (add_calls cs s)
      [name; ConnectionConfig.Type_ connConfig; Connection.GetDescription i;
       Sprint w text.FgGreen "Connected"].

(** A whole loop: one turn per entry, each appending its row. *)
Inductive turns (w : World) : list (string * ConnectionConfig.t) -> State ->
  list Row -> State -> Prop :=
| turns_nil s : turns w [] s [] s
| turns_cons name connConfig rest s s1 row new s' :
    turn w name connConfig s s1 row ->
    turns w rest (add_row row s1) new s' ->
    turns w ((name, connConfig) :: rest) s (row :: new) s'.

(** The Status cell as the report format words it: one of the bare
    literal strings. *)
Definition status_literal (st : string) : Prop :=
  st = "Skipped" \/ st = "Connected" \/
  (exists msg, st = "Failed: " +:+ msg) \/ (exists msg, st = "Error: " +:+ msg).

(** The Status cell as the loop builds it: one of the literals passed
    through the colour's [Sprint]. *)
Definition status_styled (w : World) (st : string) : Prop :=
  st = Sprint w text.FgYellow "Skipped" \/ st = Sprint w text.FgGreen "Connected" \/
  (exists msg, st = Sprint w text.FgRed ("Failed: " +:+ msg)) \/
  (exists msg, st = Sprint w text.FgRed ("Error: " +:+ msg)).

(** Two descriptors agree on the fields a mysql probe is built from. *)
Definition agree_mysql (c c' : ConnectionConfig.t) : Prop :=
  ConnectionConfig.Host c = ConnectionConfig.Host c' /\
  ConnectionConfig.Port c = ConnectionConfig.Port c' /\
  ConnectionConfig.User c = ConnectionConfig.User c' /\
  ConnectionConfig.Password c = ConnectionConfig.Password c' /\
  ConnectionConfig.Database c = ConnectionConfig.Database c'.

(** Two descriptors agree on the fields a redis probe is built from. *)
Definition agree_redis (c c' : ConnectionConfig.t) : Prop :=
  ConnectionConfig.Host c = ConnectionConfig.Host c' /\
  ConnectionConfig.Port c = ConnectionConfig.Port c' /\
  ConnectionConfig.Password c = ConnectionConfig.Password c' /\
  ConnectionConfig.DB c = ConnectionConfig.DB c'.

(** The descriptor [c] with another password. *)
Definition with_Password (pw : string) (c : ConnectionConfig.t) : ConnectionConfig.t :=
  {| ConnectionConfig.Type_ := ConnectionConfig.Type_ c;
     ConnectionConfig.IsChecked := ConnectionConfig.IsChecked c;
     ConnectionConfig.Host := ConnectionConfig.Host c;
     ConnectionConfig.Port := ConnectionConfig.Port c;
     ConnectionConfig.User := ConnectionConfig.User c;
     ConnectionConfig.Password := pw;
     ConnectionConfig.Database := ConnectionConfig.Database c;
     ConnectionConfig.URL := ConnectionConfig.URL c;
     ConnectionConfig.Method := ConnectionConfig.Method c;
     ConnectionConfig.Timeout := ConnectionConfig.Timeout c;
     ConnectionConfig.DB := ConnectionConfig.DB c;
     ConnectionConfig.ProjectID := ConnectionConfig.ProjectID c;
     ConnectionConfig.CredentialsJSON := ConnectionConfig.CredentialsJSON c;
     ConnectionConfig.TopicID := ConnectionConfig.TopicID c |}.

(** The Description cell of a descriptor's row: empty when no resource
    is created, the probe's description otherwise. *)
Definition description_of (w : World) (name : string) (c : ConnectionConfig.t) : string :=
  match createResource w name c with
  | Err _ => EmptyString
  | Ok resource =>
      match Resource.Config resource with
      | Some i => Connection.GetDescription i
      | None => EmptyString
      end
  end.

(** What every row says about its entry, whatever the state the turn started in. *)
Definition row_of_entry (w : World) (entry : string * ConnectionConfig.t) (row : Row)
  : Prop :=
  col_Name row = entry.1 /\
  col_Type row = ConnectionConfig.Type_ entry.2 /\
  forall err, createResource w entry.1 entry.2 = Err err ->
    row = [entry.1; ConnectionConfig.Type_ entry.2; EmptyString;
           Sprint w text.FgRed ("Error: " +:+ err)].

(** ** Further notions used by the properties of the whole command *)

(** A world whose configuration file cannot be read. *)
Definition unreadable : World :=
  {| ParseDuration := ParseDuration plain;
     client_Get := client_Get plain;
     sql_Open := sql_Open plain;
     DB_Ping := DB_Ping plain;
     redis_Ping := redis_Ping plain;
     pubsub_NewClient := pubsub_NewClient plain;
     Topic_Exists := Topic_Exists plain;
     Sprint := Sprint plain;
     ReadInConfig := fun _ => Err "open cmd/default.yaml: no such file or directory";
     MapRange := MapRange plain;
     MapRange_perm := MapRange_perm plain |}.

(** The [type] string a probe is created for. *)
Definition kind_of (i : Connection.t) : string :=
  match i with
  | Connection.MySQL _ => "mysql"
  | Connection.HTTP _ => "http"
  | Connection.Redis _ => "redis"
  | Connection.PubSub _ => "pubsub"
  end.

(** Whether the loop attempts a connection for an entry: a resource is
    created and it is checked. *)
Definition attempts (w : World) (entry : string * ConnectionConfig.t) : bool :=
  match createResource w entry.1 entry.2 with
  | Ok resource => Resource.IsChecked resource
  | Err _ => false
  end.

(** Two descriptors agree on the fields a pubsub probe is built from. *)
Definition agree_pubsub (c c' : ConnectionConfig.t) : Prop :=
  ConnectionConfig.ProjectID c = ConnectionConfig.ProjectID c' /\
  ConnectionConfig.CredentialsJSON c = ConnectionConfig.CredentialsJSON c' /\
  ConnectionConfig.TopicID c = ConnectionConfig.TopicID c'.

(** The descriptor [c] with another method. *)
Definition with_Method (m : string) (c : ConnectionConfig.t) : ConnectionConfig.t :=
  {| ConnectionConfig.Type_ := ConnectionConfig.Type_ c;
     ConnectionConfig.IsChecked := ConnectionConfig.IsChecked c;
     ConnectionConfig.Host := ConnectionConfig.Host c;
     ConnectionConfig.Port := ConnectionConfig.Port c;
     ConnectionConfig.User := ConnectionConfig.User c;
     ConnectionConfig.Password := ConnectionConfig.Password c;
     ConnectionConfig.Database := ConnectionConfig.Database c;
     ConnectionConfig.URL := ConnectionConfig.URL c;
     ConnectionConfig.Method := m;
     ConnectionConfig.Timeout := ConnectionConfig.Timeout c;
     ConnectionConfig.DB := ConnectionConfig.DB c;
     ConnectionConfig.ProjectID := ConnectionConfig.ProjectID c;
     ConnectionConfig.CredentialsJSON := ConnectionConfig.CredentialsJSON c;
     ConnectionConfig.TopicID := ConnectionConfig.TopicID c |}.

(** ** The [table-summary] command

    The second command of the package: for every configured mysql
    connection it lists the tables and counts the records of each.  Its
    effects are kept in one list, in the order they happen: the calls to
    database/sql, the lines given to [log.Printf] and [fmt.Printf], and the
    tables rendered. *)
Module TableSummary.

(** A line feed, as the format strings write it. *)
Definition LF : string := String (ascii_of_nat 10) EmptyString.

Inductive Event : Type :=
| Open (driverName dsn : string)            (* sql.Open(driverName, dsn) *)
| Query (query : string)                    (* db.Query(query) *)
| QueryRowScan (query : string)             (* db.QueryRow(query).Scan(&count) *)
| RowsClose                                 (* rows.Close() *)
| DBClose                                   (* db.Close() *)
| LogPrintf (message : string)              (* log.Printf(format, ...) *)
| Printf (text : string)                    (* fmt.Printf(format, ...) *)
| Render (header : list (list string)) (rows : list (string * Z)). (* tw.Render() *)

(** What [db.Query] gives back when it succeeds: for each row that
    [rows.Next] yields, what [rows.Scan] returns for it, and then what
    [rows.Err] returns. *)
Record Rows : Type := {
  scans : list (result string);
  rows_Err : option error
}.

(** The world of this command; as before, an answer may depend on
    everything that happened earlier. *)
Record Database : Type := {
  ReadInConfig : string -> result Viper;
  sql_Open : list Event -> string -> string -> option error;
  db_Query : list Event -> string -> result Rows;
  db_QueryRow_Scan : list Event -> string -> result Z;
  (* the order in which [range] visits the keys of a map *)
  KeysRange : gset string -> list string;
  KeysRange_perm : forall keys, KeysRange keys ≡ₚ elements keys
}.

Definition T (A : Type) : Type := list Event -> A * list Event.

#[global] Instance T_ret : MRet T := fun A a h => (a, h).
#[global] Instance T_bind : MBind T := fun A B f m h =>
  let (a, h') := m h in f a h'.

Definition call {A : Type} (e : Event) (answer : list Event -> A) : T A :=
  fun h => (answer h, h ++ [e]).

Definition emit (e : Event) : T unit := call e (fun _ => tt).

Record Connect : Type := {
  DSN : string
}.

Definition NewConnect (dsn : string) : Connect := {| DSN := dsn |}.

(** The loop [for rows.Next()] of [GetTables]; [tables] is the slice so far. *)
Fixpoint scan_rows (pending : list (result string)) (tables : list string)
  : T (list string) :=
  match pending with
  | [] => mret tables
  | Err err :: rest =>
      emit (LogPrintf ("failed to scan table name: " +:+ err));;
      scan_rows rest tables
  | Ok table :: rest => scan_rows rest (tables ++ [table])
  end.

(** [GetTables]; the nil slice is [None]. *)
Definition GetTables (w : Database) (c : Connect) : T (option (list string)) :=
  o ← call (Open "mysql" (DSN c)) (fun h => sql_Open w h "mysql" (DSN c));
  match o with
  | Some err =>
      emit (LogPrintf ("failed to connect to MySQL: " +:+ err));;
      mret None
  | None =>
      q ← call (Query "SHOW TABLES") (fun h => db_Query w h "SHOW TABLES");
      match q with
      | Err err =>
          emit (LogPrintf ("failed to query tables: " +:+ err));;
          emit DBClose;;                    (* defer db.Close() *)
          mret None
      | Ok rows =>
          tables ← scan_rows (scans rows) [];
          match rows_Err rows with
          | Some err => emit (LogPrintf ("row iteration error: " +:+ err))
          | None => mret tt
          end;;
          emit RowsClose;;                  (* defer rows.Close() *)
          emit DBClose;;                    (* defer db.Close() *)
          mret (Some tables)
      end
  end.

Definition GetTableCount (w : Database) (c : Connect) (tableName : string) : T Z :=
  o ← call (Open "mysql" (DSN c)) (fun h => sql_Open w h "mysql" (DSN c));
  match o with
  | Some _ => mret (-1)
  | None =>
      let query := "SELECT COUNT(*) FROM `" +:+ tableName +:+ "`" in
      r ← call (QueryRowScan query) (fun h => db_QueryRow_Scan w h query);
      let ret := match r with Err _ => -1 | Ok count => count end in
      emit DBClose;;                        (* defer db.Close() *)
      mret ret
  end.

(** The loop [for _, tbl := range tables]; [rows] is the table so far. *)
Fixpoint count_tables (w : Database) (connect : Connect) (tables : list string)
  (rows : list (string * Z)) : T (list (string * Z)) :=
  match tables with
  | [] => mret rows
  | tbl :: rest =>
      count ← GetTableCount w connect tbl;
      count_tables w connect rest (rows ++ [(tbl, count)])
  end.

(** The body of [for name := range conns]. *)
Definition loop_body (w : Database) (v : Viper) (name : string) : T unit :=
  let prefix := "check.connections." +:+ name in
  let typeVal := GetString v (prefix +:+ ".type") in
  if negb (String.eqb typeVal "mysql") then mret tt
  else
    let user := GetString v (prefix +:+ ".user") in
    let password := GetString v (prefix +:+ ".password") in
    let host := GetString v (prefix +:+ ".host") in
    let port := GetInt v (prefix +:+ ".port") in
    let database := GetString v (prefix +:+ ".database") in
    (* "%s:%s@tcp(%s:%d)/%s" *)
    let dsn := user +:+ ":" +:+ password +:+ "@tcp(" +:+ host +:+ ":" +:+ fmt_d port
                 +:+ ")/" +:+ database in
    let connect := NewConnect dsn in
    tables ← GetTables w connect;
    emit (Printf (LF +:+ "连接名: " +:+ name +:+ LF +:+ "DSN: " +:+ dsn +:+ LF));;
    rows ← count_tables w connect (default [] tables) [];
    emit (Render [["表名称"; "记录总数"]] rows).

Fixpoint range (w : Database) (v : Viper) (names : list string) : T unit :=
  match names with
  | [] => mret tt
  | name :: rest => loop_body w v name;; range w v rest
  end.

Definition RunE (w : Database) : T (option error) :=
  match ReadInConfig w "cmd/default.yaml" with
  | Err err => mret (Some ("failed to read config file: " +:+ err))
  | Ok v =>
      let conns := GetStringMap v "check.connections" in
      range w v (KeysRange w conns);;
      mret None
  end.

(** The names that a result set yields: those whose scan succeeded. *)
Definition scanned (pending : list (result string)) : list string :=
  omap (fun r => match r with Ok table => Some table | Err _ => None end) pending.

(** How many database handles a list of events opens. *)
Definition opens (h : list Event) : nat :=
  length (List.filter (fun e => match e with Open _ _ => true | _ => false end) h).

(** How many database handles a list of events closes. *)
Definition closes (h : list Event) : nat :=
  length (List.filter (fun e => match e with DBClose => true | _ => false end) h).

(** The lines that the scan loop logs: one for each row whose scan failed. *)
Definition scan_logs (pending : list (result string)) : list Event :=
  omap (fun r => match r with
                 | Ok _ => None
                 | Err err => Some (LogPrintf ("failed to scan table name: " +:+ err))
                 end) pending.

(** How many tables a list of events renders. *)
Definition renders (h : list Event) : nat :=
  length (List.filter (fun e => match e with Render _ _ => true | _ => false end) h).

(** Whether the settings declare the connection [name] of type mysql. *)
Definition is_mysql (v : Viper) (name : string) : bool :=
  String.eqb (GetString v (("check.connections." +:+ name) +:+ ".type")) "mysql".

(** The settings of [sample_Viper], with a user and a password for db1. *)
Definition sample_settings : Viper :=
  {| GetStringMap := GetStringMap sample_Viper;
     GetString := fun key =>
       if String.eqb key "check.connections.db1.password" then "secret"
       else if String.eqb key "check.connections.db1.user" then "root"
       else GetString sample_Viper key;
     GetBool := GetBool sample_Viper;
     GetInt := fun _ => 3306 |}.

(** A database with two tables, of which the second cannot be counted. *)
Definition sample_Database : Database :=
  {| ReadInConfig := fun _ => Ok sample_settings;
     sql_Open := fun _ _ _ => None;
     db_Query := fun _ _ =>
       Ok {| scans := [Ok "users"; Err "sql: Scan error"; Ok "odd`name"];
             rows_Err := None |};
     db_QueryRow_Scan := fun _ query =>
       if String.eqb query "SELECT COUNT(*) FROM `users`" then Ok 42
       else Err "Error 1064: You have an error in your SQL syntax";
     KeysRange := elements;
     KeysRange_perm := fun keys => reflexivity (elements keys) |}.

(** A world in which no database can be opened and no file read. *)
Definition offline_Database : Database :=
  {| ReadInConfig := fun _ => Err "open cmd/default.yaml: no such file or directory";
     sql_Open := fun _ _ _ => Some "dial tcp: connection refused";
     db_Query := fun _ _ => Err "sql: database is closed";
     db_QueryRow_Scan := fun _ _ => Err "sql: database is closed";
     KeysRange := elements;
     KeysRange_perm := fun keys => reflexivity (elements keys) |}.

End TableSummary.

(** The calls that open a client or a connection: [client.Get],
    [sql.Open], [redis.NewClient] and [pubsub.NewClient]. *)
Definition is_opening (c : Call) : bool :=
  match c with
  | HTTPGet _ _ | SQLOpen _ _ | RedisNewClient _ _ _ | PubSubNewClient _ _ => true
  | _ => false
  end.

(** The loop [for _, tbl := range tables] of [table-summary], told
    table by table: each table is counted by [GetTableCount], started in
    the history the previous one left; [rows] are the rows appended and
    [evs] the events added. *)
Inductive counted (w : TableSummary.Database) (connect : TableSummary.Connect) :
  list string -> list TableSummary.Event -> list (string * Z) ->
  list TableSummary.Event -> Prop :=
| counted_nil h : counted w connect [] h [] []
| counted_cons tbl rest h count evs rows after :
    TableSummary.GetTableCount w connect tbl h = (count, h ++ evs) ->
    counted w connect rest (h ++ evs) rows after ->
    counted w connect (tbl :: rest) h ((tbl, count) :: rows) (evs ++ after).

(** * Properties *)

(** ** Running the model *)

Example run_plain :
  RunE plain s0 =
  Done None
    {| calls := [SQLOpen "mysql" ":@tcp(unreachable:0)/?timeout=5s"; DBPing; DBClose];
       t := {| header := [["Name"; "Type"; "Description"; "Status"]];
               rows := [["cache1"; "redis"; "redis://:0/0"; "Skipped"];
                        ["db1"; "mysql"; "mysql://@unreachable:0/";
                         "Failed: MySQL ping failed: dial tcp: lookup unreachable: no such host"]] |};
       stdout := [{| header := [["Name"; "Type"; "Description"; "Status"]];
               rows := [["cache1"; "redis"; "redis://:0/0"; "Skipped"];
                        ["db1"; "mysql"; "mysql://@unreachable:0/";
                         "Failed: MySQL ping failed: dial tcp: lookup unreachable: no such host"]] |}] |}.
Proof. vm_compute. reflexivity. Qed.

Example range_four_kinds :
  range plain [("a", descriptor "http" true); ("b", descriptor "ftp" true);
               ("c", descriptor "pubsub" true); ("d", descriptor "redis" false)] s0 =
  Done tt
    {| calls := [HTTPGet 5000000000 "http://up.test/"; BodyClose;
                 PubSubNewClient "proj" []];
       t := {| header := [];
               rows := [["a"; "http"; "GET:http://up.test/"; "Connected"];
                        ["b"; "ftp"; ""; "Error: unsupported resource type: ftp"];
                        ["c"; "pubsub"; "pubsub://proj/topics/events";
                         "Failed: failed to create Pub/Sub client: pubsub: could not find default credentials"];
                        ["d"; "redis"; "redis://localhost:3306/0"; "Skipped"]] |};
       stdout := [] |}.
Proof. vm_compute. reflexivity. Qed.

(** ** The monad *)

Lemma bind_unfold {A B : Type} (m : M A) (f : A -> M B) (s : State) :
  (m ≫= f) s = match m s with Done a s' => f a s' | Panic s' => Panic s' end.
Proof. reflexivity. Qed.

Lemma add_calls_nil (s : State) : add_calls [] s = s.
Proof. destruct s. unfold add_calls. simpl. by rewrite app_nil_r. Qed.

Lemma add_calls_app (cs1 cs2 : list Call) (s : State) :
  add_calls cs2 (add_calls cs1 s) = add_calls (cs1 ++ cs2) s.
Proof. unfold add_calls. simpl. by rewrite app_assoc. Qed.

Lemma extern_unfold {A : Type} (c : Call) (answer : list Call -> A) (s : State) :
  extern c answer s = Done (answer (calls s)) (add_calls [c] s).
Proof. reflexivity. Qed.

(** Run the straight-line part of a computation. *)
Ltac run :=
  repeat progress
    (unfold log; rewrite ?bind_unfold, ?extern_unfold, ?add_calls_app; cbv beta iota).

(** ** Each probe: result and calls *)

Lemma HTTP_CheckConnection_unfold (w : World) (c : HTTPConfig.t) (s : State) :
  HTTPConfig.CheckConnection w c s =
  match client_Get w (calls s) (HTTPConfig.Timeout c) (HTTPConfig.URL c) with
  | Err err =>
      Done (Some ("HTTP connection failed: " +:+ err))
           (add_calls [HTTPGet (HTTPConfig.Timeout c) (HTTPConfig.URL c)] s)
  | Ok StatusCode =>
      Done (if StatusCode >=? 400
            then Some ("HTTP request failed with status: " +:+ fmt_d StatusCode)
            else None)
           (add_calls [HTTPGet (HTTPConfig.Timeout c) (HTTPConfig.URL c); BodyClose] s)
  end.
Proof.
  unfold HTTPConfig.CheckConnection. rewrite bind_unfold, extern_unfold.
  destruct (client_Get w (calls s) _ _) as [code|err]; [|reflexivity].
  run. reflexivity.
Qed.

Lemma MySQL_CheckConnection_unfold (w : World) (c : MySQLConfig.t) (s : State) :
  MySQLConfig.CheckConnection w c s =
  match sql_Open w (calls s) "mysql" (MySQLConfig.dsn c) with
  | Some err =>
      Done (Some ("failed to connect to MySQL: " +:+ err))
           (add_calls [SQLOpen "mysql" (MySQLConfig.dsn c)] s)
  | None =>
      Done (match DB_Ping w (calls s ++ [SQLOpen "mysql" (MySQLConfig.dsn c)]) with
            | Some err => Some ("MySQL ping failed: " +:+ err)
            | None => None
            end)
           (add_calls [SQLOpen "mysql" (MySQLConfig.dsn c); DBPing; DBClose] s)
  end.
Proof.
  unfold MySQLConfig.CheckConnection. rewrite bind_unfold, extern_unfold.
  destruct (sql_Open w (calls s) _ _) as [err|]; [reflexivity|].
  run. reflexivity.
Qed.

Lemma Redis_CheckConnection_unfold (w : World) (c : RedisConfig.t) (s : State) :
  let NewClient :=
    RedisNewClient (RedisConfig.Host c +:+ ":" +:+ fmt_d (RedisConfig.Port c))
                   (RedisConfig.Password c) (RedisConfig.DB c) in
  RedisConfig.CheckConnection w c s =
  Done (match redis_Ping w (calls s ++ [NewClient]) with
        | Some err => Some ("Redis ping failed: " +:+ err)
        | None => None
        end)
       (add_calls [NewClient; RedisPing; RedisClose] s).
Proof.
  unfold RedisConfig.CheckConnection. simpl. run. reflexivity.
Qed.

Lemma PubSub_CheckConnection_unfold (w : World) (c : PubSubConfig.t) (s : State) :
  let opts :=
    if negb (String.eqb (PubSubConfig.CredentialsJSON c) "")
    then [WithCredentialsJSON (PubSubConfig.CredentialsJSON c)]
    else [] in
  let NewClient := PubSubNewClient (PubSubConfig.ProjectID c) opts in
  PubSubConfig.CheckConnection w c s =
  match pubsub_NewClient w (calls s) (PubSubConfig.ProjectID c) opts with
  | Some err =>
      Done (Some ("failed to create Pub/Sub client: " +:+ err)) (add_calls [NewClient] s)
  | None =>
      Done (match Topic_Exists w (calls s ++ [NewClient]) (PubSubConfig.TopicID c) with
            | Err err => Some ("failed to check topic existence: " +:+ err)
            | Ok true => None
            | Ok false => Some ("topic " +:+ PubSubConfig.TopicID c +:+ " does not exist")
            end)
           (add_calls [NewClient; TopicExists (PubSubConfig.TopicID c); PubSubClose] s)
  end.
Proof.
  unfold PubSubConfig.CheckConnection. simpl. rewrite bind_unfold, extern_unfold.
  destruct (pubsub_NewClient w (calls s) _ _) as [err|]; [reflexivity|].
  run. simpl. destruct (Topic_Exists w _ _) as [[]|]; reflexivity.
Qed.

(** A probe attempt always returns, leaves the table alone and only adds
    calls to the log. *)
Lemma CheckConnection_returns (w : World) (i : Connection.t) (s : State) :
  exists res cs, Connection.CheckConnection w i s = Done res (add_calls cs s).
Proof.
  destruct i as [c|c|c|c]; simpl.
  - rewrite MySQL_CheckConnection_unfold. destruct (sql_Open _ _ _ _); eauto.
  - rewrite HTTP_CheckConnection_unfold. destruct (client_Get _ _ _ _); eauto.
  - rewrite Redis_CheckConnection_unfold. eauto.
  - rewrite PubSub_CheckConnection_unfold. destruct (pubsub_NewClient _ _ _ _); eauto.
Qed.

(** ** The factory *)

(** [createResource] only returns a resource after it has assigned [Config]. *)
Lemma createResource_Ok (w : World) (name : string) (config : ConnectionConfig.t)
  (resource : Resource.t) :
  createResource w name config = Ok resource ->
  Resource.Type_ resource = ConnectionConfig.Type_ config /\
  Resource.IsChecked resource = ConnectionConfig.IsChecked config /\
  exists i, Resource.Config resource = Some i.
Proof.
  unfold createResource. intros H.
  repeat match type of H with
         | (if ?b then _ else _) = _ => destruct b
         | match ?x with Ok _ => _ | Err _ => _ end = _ => destruct x
         end;
    inversion H; subst; simpl; eauto.
Qed.

(** ** One turn of the loop, and the whole loop *)

Lemma loop_body_turn (w : World) (name : string) (connConfig : ConnectionConfig.t)
  (s : State) :
  exists s1 row,
    loop_body w name connConfig s = Done tt (add_row row s1) /\
    turn w name connConfig s s1 row.
Proof.
  unfold loop_body.
  destruct (createResource w name connConfig) as [resource|err] eqn:Hc.
  - destruct (createResource_Ok _ _ _ _ Hc) as (_ & _ & i & Hi).
    destruct (Resource.IsChecked resource) eqn:Hk; simpl.
    + unfold Config_CheckConnection, Config_GetDescription. rewrite Hi, bind_unfold.
      destruct (CheckConnection_returns w i s) as (res & cs & Hr). rewrite Hr.
      destruct res as [err|]; rewrite bind_unfold; simpl;
        eexists _, _; (split; [reflexivity|]).
      * eapply turn_Failed; eauto.
      * eapply turn_Connected; eauto.
    + unfold Config_GetDescription. rewrite Hi. rewrite bind_unfold. simpl.
      eexists _, _. split; [reflexivity|]. eapply turn_Skipped; eauto.
  - eexists _, _. split; [reflexivity|]. by apply turn_Error.
Qed.

Lemma range_turns (w : World) (entries : list (string * ConnectionConfig.t)) (s : State) :
  exists new s', range w entries s = Done tt s' /\ turns w entries s new s'.
Proof.
  revert s. induction entries as [|[name connConfig] rest IH]; intros s; simpl.
  - exists [], s. split; [reflexivity|constructor].
  - destruct (loop_body_turn w name connConfig s) as (s1 & row & Hb & Ht).
    destruct (IH (add_row row s1)) as (new & s' & Hr & Hts).
    exists (row :: new), s'. split.
    + change (range w ((name, connConfig) :: rest)) with
        (loop_body w name connConfig ≫= (fun _ => range w rest)).
      rewrite bind_unfold, Hb. exact Hr.
    + econstructor; eauto.
Qed.

Lemma turn_adds_calls (w : World) name connConfig s s1 row :
  turn w name connConfig s s1 row -> exists cs, s1 = add_calls cs s.
Proof.
  destruct 1; try (by exists cs); exists []; by rewrite add_calls_nil.
Qed.

Lemma turns_table (w : World) entries s new s' :
  turns w entries s new s' ->
  t s' = {| header := header (t s); rows := rows (t s) ++ new |} /\
  stdout s' = stdout s /\
  length new = length entries.
Proof.
  induction 1 as [s|name connConfig rest s s1 row new s' Ht _ (IHt & IHo & IHl)].
  - rewrite app_nil_r. by destruct s as [? [] ?].
  - destruct (turn_adds_calls _ _ _ _ _ _ Ht) as [cs ->].
    rewrite IHt, IHo. simpl. rewrite <- app_assoc. simpl. by rewrite IHl.
Qed.

Lemma turns_Forall2 (w : World) (P : string * ConnectionConfig.t -> Row -> Prop)
  entries s new s' :
  (forall name connConfig s s1 row,
      turn w name connConfig s s1 row -> P (name, connConfig) row) ->
  turns w entries s new s' -> Forall2 P entries new.
Proof. intros HP. induction 1; constructor; eauto. Qed.

Lemma turn_row_of_entry (w : World) name connConfig s s1 row :
  turn w name connConfig s s1 row -> row_of_entry w (name, connConfig) row.
Proof.
  destruct 1 as [e0 Hc|? ? Hc|? ? ? ? Hc|? ? ? Hc];
    (split; [reflexivity|split; [reflexivity|]]); simpl; intros e He;
    rewrite Hc in He; by inversion He.
Qed.

Lemma Forall2_pick {A B : Type} (P : A -> B -> Prop) (l : list A) (k : list B) (x : A) :
  Forall2 P l k -> x ∈ l -> exists y, y ∈ k /\ P x y.
Proof.
  induction 1 as [|a b l k Hab _ IH]; intros Hx.
  - by apply elem_of_nil in Hx.
  - apply elem_of_cons in Hx as [->|Hx].
    + exists b. split; [left|done].
    + destruct (IH Hx) as (y & Hy & HP). exists y. split; [by right|done].
Qed.

Lemma Forall2_fmap_eq {A B C : Type} (f : A -> C) (g : B -> C) (l : list A) (k : list B) :
  Forall2 (fun a b => g b = f a) l k -> g <$> k = f <$> l.
Proof. induction 1 as [|a b l k Hab _ IH]; [done|]. rewrite !fmap_cons. congruence. Qed.

Lemma range_table (w : World) (entries : list (string * ConnectionConfig.t)) (s : State) :
  exists new s',
    range w entries s = Done tt s' /\
    t s' = {| header := header (t s); rows := rows (t s) ++ new |} /\
    stdout s' = stdout s /\
    length new = length entries.
Proof.
  destruct (range_turns w entries s) as (new & s' & Hr & Hts).
  destruct (turns_table _ _ _ _ _ Hts) as (Ht & Ho & Hl). by exists new, s'.
Qed.

(** ** C1 *)

(** C1. For every mapping of named descriptors, the loop of the command
    returns (it never aborts) having appended exactly one row per
    descriptor: as many rows as the mapping has entries, their names an
    enumeration of the mapping's keys without repetition; the row of a
    descriptor has its name and declared kind, and when [createResource]
    fails for it the row is the Error row with an empty description and the
    error's reason. *)
Theorem one_row_per_descriptor (w : World) (connections : gmap string ConnectionConfig.t)
  (s : State) :
  exists new s',
    range w (MapRange w connections) s = Done tt s' /\
    t s' = {| header := header (t s); rows := rows (t s) ++ new |} /\
    length new = size connections /\
    col_Name <$> new ≡ₚ (map_to_list connections).*1 /\
    NoDup (col_Name <$> new) /\
    forall name connConfig,
      connections !! name = Some connConfig ->
      exists row,
        row ∈ new /\ col_Name row = name /\
        col_Type row = ConnectionConfig.Type_ connConfig /\
        forall err, createResource w name connConfig = Err err ->
          row = [name; ConnectionConfig.Type_ connConfig; EmptyString;
                 Sprint w text.FgRed ("Error: " +:+ err)].
Proof.
  destruct (range_turns w (MapRange w connections) s) as (new & s' & Hr & Hts).
  destruct (turns_table _ _ _ _ _ Hts) as (Ht & _ & Hl).
  pose proof (turns_Forall2 w (row_of_entry w) _ _ _ _ (turn_row_of_entry w) Hts) as HF.
  assert (Hn : col_Name <$> new = (MapRange w connections).*1).
  { apply Forall2_fmap_eq. eapply Forall2_impl; [exact HF|]. by intros e row (? & _). }
  exists new, s'. repeat split; try done.
  - by rewrite Hl, (MapRange_perm w connections), length_map_to_list.
  - by rewrite Hn, (MapRange_perm w connections).
  - rewrite Hn, (MapRange_perm w connections). apply NoDup_fst_map_to_list.
  - intros name connConfig Hlk.
    assert (Hin : (name, connConfig) ∈ MapRange w connections).
    { rewrite (MapRange_perm w connections). by apply elem_of_map_to_list. }
    destruct (Forall2_pick _ _ _ _ HF Hin) as (row & Hrow & Hn' & Hty & He).
    exists row. eauto.
Qed.

(** The whole command: when the configuration is read, it renders one
    table holding the header and one row per configured connection, and
    returns no error. *)
Lemma RunE_renders (w : World) (connections : gmap string ConnectionConfig.t) (s : State) :
  parseConfig w "cmd/default.yaml" = Ok connections ->
  exists new s',
    RunE w s = Done None s' /\
    stdout s' =
      stdout s ++ [{| header := [["Name"; "Type"; "Description"; "Status"]]; rows := new |}] /\
    length new = size connections.
Proof.
  intros Hp. unfold RunE. rewrite Hp. run. unfold NewWriter, AppendHeader. run. simpl.
  match goal with
  | |- context [range w ?l ?s1] =>
      destruct (range_table w l s1) as (new & s' & Hr & Ht & Ho & Hl); rewrite Hr
  end.
  exists new, {| calls := calls s'; t := t s'; stdout := stdout s' ++ [t s'] |}.
  split; [reflexivity|split].
  - simpl. rewrite Ho, Ht. reflexivity.
  - by rewrite Hl, (MapRange_perm w connections), length_map_to_list.
Qed.

(** ** C2 *)

(** C2. For a descriptor that materializes and whose checked flag is
    false, the turn of the loop appends the Skipped row, described by the
    probe's [GetDescription], and leaves the log of library calls as it
    was: no connection is attempted. *)
Theorem unchecked_is_skipped_without_calls (w : World) (name : string)
  (connConfig : ConnectionConfig.t) (resource : Resource.t) (s : State) :
  createResource w name connConfig = Ok resource ->
  ConnectionConfig.IsChecked connConfig = false ->
  exists i s',
    Resource.Config resource = Some i /\
    loop_body w name connConfig s = Done tt s' /\
    calls s' = calls s /\
    rows (t s') =
      rows (t s) ++ [[name; ConnectionConfig.Type_ connConfig;
                      Connection.GetDescription i; Sprint w text.FgYellow "Skipped"]].
Proof.
  intros Hc Hk. destruct (createResource_Ok _ _ _ _ Hc) as (_ & Hk' & i & Hi).
  rewrite Hk in Hk'. unfold loop_body, Config_GetDescription. rewrite Hc, Hk', Hi. simpl.
  exists i. eexists. split; [done|]. split; [reflexivity|]. by split.
Qed.

Lemma unchecked_is_skipped_without_calls_witness :
  exists i s',
    Some (Connection.Redis (RedisConfig.mk "localhost" 3306 "secret" 0)) = Some i /\
    loop_body plain "cache1" (descriptor "redis" false) s0 = Done tt s' /\
    calls s' = calls s0 /\
    rows (t s') =
      rows (t s0) ++ [["cache1"; "redis"; Connection.GetDescription i;
                       Sprint plain text.FgYellow "Skipped"]].
Proof.
  apply (unchecked_is_skipped_without_calls plain "cache1" (descriptor "redis" false)
           (Resource.mk "redis" false
              (Some (Connection.Redis (RedisConfig.mk "localhost" 3306 "secret" 0))))
           s0); reflexivity.
Defined.

(** A run over descriptors that are all unchecked makes no library call at all. *)
Lemma unchecked_run_makes_no_call (w : World) entries s new s' :
  Forall (fun entry => ConnectionConfig.IsChecked entry.2 = false) entries ->
  turns w entries s new s' -> calls s' = calls s.
Proof.
  intros Hall Hts. induction Hts as [s|name connConfig rest s s1 row new s' Ht _ IH];
    [done|].
  apply Forall_cons in Hall as [Hk Hall]. simpl in Hk. rewrite (IH Hall). simpl.
  destruct Ht as [?|?|resource i ? ? Hc _ Hk'|resource i ? Hc _ Hk']; try done;
    destruct (createResource_Ok _ _ _ _ Hc) as (_ & Hk'' & _); congruence.
Qed.

(** ** C3 *)

(** C3, as stated, fails: on a terminal where go-pretty has colours
    enabled, the row of an unchecked redis descriptor has the Status cell
    ESC[33mSkippedESC[0m, which is none of the literal strings. *)
Lemma status_is_not_literal_with_colours :
  exists s',
    range ansi [("cache1", descriptor "redis" false)] s0 = Done tt s' /\
    rows (t s') =
      [["cache1"; "redis"; "redis://localhost:3306/0";
        ESC +:+ "[33mSkipped" +:+ ESC +:+ "[0m"]] /\
    ~ Forall (fun row => status_literal (col_Status row)) (rows (t s')).
Proof.
  eexists. split; [reflexivity|]. split; [reflexivity|].
  intros H. apply Forall_cons in H as [H _]. vm_compute in H.
  destruct H as [H|[H|[[msg H]|[msg H]]]]; discriminate H.
Qed.

(** C3, amended. Every row the loop appends has four cells, and its
    Status cell is what the colour's [Sprint] makes of exactly one of the
    literals: yellow Skipped, green Connected, red Failed: message, red
    Error: message.  It is the bare literal when [Sprint] adds nothing
    (colours disabled). *)
Theorem status_is_styled_literal (w : World) (entries : list (string * ConnectionConfig.t))
  (s : State) :
  exists new s',
    range w entries s = Done tt s' /\
    t s' = {| header := header (t s); rows := rows (t s) ++ new |} /\
    Forall (fun row => length row = 4%nat /\ status_styled w (col_Status row)) new /\
    ((forall c x, Sprint w c x = x) ->
     Forall (fun row => status_literal (col_Status row)) new).
Proof.
  destruct (range_turns w entries s) as (new & s' & Hr & Hts).
  destruct (turns_table _ _ _ _ _ Hts) as (Ht & _ & _).
  assert (HF : Forall (fun row => length row = 4%nat /\ status_styled w (col_Status row)) new).
  { clear Hr Ht. induction Hts as [|? ? ? ? ? ? ? ? Hturn _ IH]; constructor; [|done].
    destruct Hturn; (split; [reflexivity|]); unfold status_styled, col_Status; simpl; eauto. }
  exists new, s'. repeat split; try done.
  intros Hplain. eapply Forall_impl; [exact HF|].
  intros row [_ Hst]. unfold status_styled in Hst. rewrite !Hplain in Hst.
  destruct Hst as [H|[H|[[msg H]|[msg H]]]]; unfold status_literal; rewrite ?Hplain in H; eauto.
Qed.

(** ** C9 *)

(** C9. A resource returned by [createResource] has a probe (its Config
    is not nil) and carries the descriptor's Type and IsChecked; so
    [GetDescription] through it returns, and a turn of the loop never
    panics. *)
Theorem created_resource_has_probe (w : World) (name : string)
  (config : ConnectionConfig.t) (resource : Resource.t) :
  createResource w name config = Ok resource ->
  Resource.Config resource <> None /\
  Resource.Type_ resource = ConnectionConfig.Type_ config /\
  Resource.IsChecked resource = ConnectionConfig.IsChecked config /\
  (forall s, exists d, Config_GetDescription resource s = Done d s) /\
  (forall s, exists res s', Config_CheckConnection w resource s = Done res s') /\
  (forall s, exists s', loop_body w name config s = Done tt s').
Proof.
  intros Hc. destruct (createResource_Ok _ _ _ _ Hc) as (Hty & Hk & i & Hi).
  repeat split; try done.
  - by rewrite Hi.
  - intros s. unfold Config_GetDescription. rewrite Hi. by eexists.
  - intros s. unfold Config_CheckConnection. rewrite Hi.
    destruct (CheckConnection_returns w i s) as (res & cs & Hr). eauto.
  - intros s. destruct (loop_body_turn w name config s) as (s1 & row & Hb & _). eauto.
Qed.

Lemma created_resource_has_probe_witness :
  Resource.Config
    (Resource.mk "http" true
       (Some (Connection.HTTP (HTTPConfig.mk "http://up.test/" "GET" 5000000000)))) <> None /\
  (forall s, exists s', loop_body plain "web" (descriptor "http" true) s = Done tt s').
Proof.
  pose proof (created_resource_has_probe plain "web" (descriptor "http" true)
                (Resource.mk "http" true
                   (Some (Connection.HTTP (HTTPConfig.mk "http://up.test/" "GET" 5000000000))))
                eq_refl) as (H1 & _ & _ & _ & _ & H2).
  exact (conj H1 H2).
Defined.

(** ** C4 *)

(** C4. For a descriptor of kind http, [createResource] fails exactly
    when [time.ParseDuration] rejects the timeout field, and then with
    the invalid-timeout-format error; when the timeout parses, the resource
    holds an HTTP probe with the descriptor's url and method as they are
    and the parsed timeout; and the turn of a descriptor whose timeout does
    not parse appends the Error row without any library call. *)
Theorem http_timeout_decides_construction (w : World) (name : string)
  (config : ConnectionConfig.t) :
  ConnectionConfig.Type_ config = "http" ->
  (forall e,
      createResource w name config = Err e <->
      exists err, ParseDuration w (ConnectionConfig.Timeout config) = Err err /\
                  e = "invalid timeout format: " +:+ err) /\
  (forall timeout,
      ParseDuration w (ConnectionConfig.Timeout config) = Ok timeout ->
      createResource w name config =
      Ok {| Resource.Type_ := "http";
            Resource.IsChecked := ConnectionConfig.IsChecked config;
            Resource.Config :=
              Some (Connection.HTTP
                      {| HTTPConfig.URL := ConnectionConfig.URL config;
                         HTTPConfig.Method := ConnectionConfig.Method config;
                         HTTPConfig.Timeout := timeout |}) |}) /\
  (forall err s,
      ParseDuration w (ConnectionConfig.Timeout config) = Err err ->
      exists s',
        loop_body w name config s = Done tt s' /\
        calls s' = calls s /\
        rows (t s') =
          rows (t s) ++ [[name; "http"; EmptyString;
                          Sprint w text.FgRed ("Error: invalid timeout format: " +:+ err)]]).
Proof.
  intros Hty.
  assert (Hcr : createResource w name config =
                match ParseDuration w (ConnectionConfig.Timeout config) with
                | Err err => Err ("invalid timeout format: " +:+ err)
                | Ok timeout =>
                    Ok {| Resource.Type_ := "http";
                          Resource.IsChecked := ConnectionConfig.IsChecked config;
                          Resource.Config :=
                            Some (Connection.HTTP
                                    {| HTTPConfig.URL := ConnectionConfig.URL config;
                                       HTTPConfig.Method := ConnectionConfig.Method config;
                                       HTTPConfig.Timeout := timeout |}) |}
                end).
  { unfold createResource. rewrite Hty. simpl.
    destruct (ParseDuration w _); reflexivity. }
  split; [|split].
  - intros e. rewrite Hcr. destruct (ParseDuration w _) as [d|err].
    + split; [discriminate|]. intros (err & He & _). discriminate He.
    + split.
      * intros He. inversion He. by exists err.
      * intros (err' & He & ->). by inversion He.
  - intros timeout Hp. by rewrite Hcr, Hp.
  - intros err s Hp. unfold loop_body. rewrite Hcr, Hp, Hty.
    eexists. split; [reflexivity|]. by split.
Qed.

Lemma http_timeout_decides_construction_witness :
  createResource plain "web"
    (ConnectionConfig.mk "http" true "" 0 "" "" "" "not a url" "" "bogus" 0 "" "" "") =
  Err ("invalid timeout format: time: invalid duration " +:+ dquote +:+ "bogus" +:+ dquote) /\
  createResource plain "web"
    (ConnectionConfig.mk "http" true "" 0 "" "" "" "not a url" "" "5s" 0 "" "" "") =
  Ok (Resource.mk "http" true
        (Some (Connection.HTTP (HTTPConfig.mk "not a url" "" 5000000000)))) /\
  exists s',
    loop_body plain "web"
      (ConnectionConfig.mk "http" true "" 0 "" "" "" "not a url" "" "bogus" 0 "" "" "") s0 =
    Done tt s' /\
    calls s' = [] /\
    rows (t s') =
      [["web"; "http"; EmptyString;
        "Error: invalid timeout format: time: invalid duration "
          +:+ dquote +:+ "bogus" +:+ dquote]].
Proof.
  split; [|split].
  - apply (http_timeout_decides_construction plain "web"
             (ConnectionConfig.mk "http" true "" 0 "" "" "" "not a url" "" "bogus" 0 "" "" "")
             eq_refl).
    eexists. split; reflexivity.
  - apply (proj1 (proj2 (http_timeout_decides_construction plain "web"
             (ConnectionConfig.mk "http" true "" 0 "" "" "" "not a url" "" "5s" 0 "" "" "")
             eq_refl))).
    reflexivity.
  - apply (proj2 (proj2 (http_timeout_decides_construction plain "web"
             (ConnectionConfig.mk "http" true "" 0 "" "" "" "not a url" "" "bogus" 0 "" "" "")
             eq_refl))
             ("time: invalid duration " +:+ dquote +:+ "bogus" +:+ dquote) s0).
    reflexivity.
Defined.

(** ** C5 *)

(** C5. The HTTP probe makes one GET, to its url with its timeout, and
    nothing else but closing the body of a response.  It returns no error
    exactly when the GET answers with a status code below 400; a transport
    error and a status code of 400 or more are returned as errors.  In the
    loop, a checked http descriptor whose GET answers with a status code
    gets the Connected row below 400 and the Failed row from 400 on. *)
Theorem http_probe_classifies_status (w : World) :
  (forall (c : HTTPConfig.t) (s : State),
      exists res cs,
        HTTPConfig.CheckConnection w c s = Done res (add_calls cs s) /\
        (cs = [HTTPGet (HTTPConfig.Timeout c) (HTTPConfig.URL c)] \/
         cs = [HTTPGet (HTTPConfig.Timeout c) (HTTPConfig.URL c); BodyClose]) /\
        (res = None <->
         exists StatusCode,
           client_Get w (calls s) (HTTPConfig.Timeout c) (HTTPConfig.URL c) = Ok StatusCode /\
           StatusCode < 400) /\
        (forall err,
            client_Get w (calls s) (HTTPConfig.Timeout c) (HTTPConfig.URL c) = Err err ->
            res = Some ("HTTP connection failed: " +:+ err)) /\
        (forall StatusCode,
            client_Get w (calls s) (HTTPConfig.Timeout c) (HTTPConfig.URL c) = Ok StatusCode ->
            400 <= StatusCode ->
            res = Some ("HTTP request failed with status: " +:+ fmt_d StatusCode))) /\
  (forall name connConfig timeout StatusCode s,
      ConnectionConfig.Type_ connConfig = "http" ->
      ConnectionConfig.IsChecked connConfig = true ->
      ParseDuration w (ConnectionConfig.Timeout connConfig) = Ok timeout ->
      client_Get w (calls s) timeout (ConnectionConfig.URL connConfig) = Ok StatusCode ->
      exists s',
        loop_body w name connConfig s = Done tt s' /\
        rows (t s') =
          rows (t s) ++
          [[name; "http";
            ConnectionConfig.Method connConfig +:+ ":" +:+ ConnectionConfig.URL connConfig;
            if StatusCode <? 400
            then Sprint w text.FgGreen "Connected"
            else Sprint w text.FgRed
                   ("Failed: HTTP request failed with status: " +:+ fmt_d StatusCode)]]).
Proof.
  split.
  - intros c s. rewrite HTTP_CheckConnection_unfold.
    destruct (client_Get w (calls s) _ _) as [code|err].
    + eexists _, _. split; [reflexivity|]. split; [by right|].
      destruct (Z.geb_spec code 400) as [Hge|Hlt].
      * split; [|split].
        -- split; [discriminate|]. intros (c' & Hc' & Hlt). inversion Hc'. lia.
        -- discriminate.
        -- intros c' Hc' _. by inversion Hc'.
      * split; [|split].
        -- split; [|done]. intros _. by exists code.
        -- discriminate.
        -- intros c' Hc' Hge. inversion Hc'. lia.
    + eexists _, _. split; [reflexivity|]. split; [by left|]. split; [|split].
      * split; [discriminate|]. intros (c' & Hc' & _). discriminate Hc'.
      * intros err' He. by inversion He.
      * discriminate.
  - intros name connConfig timeout code s Hty Hk Hp Hg.
    unfold loop_body, createResource. rewrite Hty, Hp, Hk. simpl.
    unfold Config_CheckConnection, Config_GetDescription. simpl.
    rewrite bind_unfold, HTTP_CheckConnection_unfold. simpl. rewrite Hg.
    destruct (Z.geb_spec code 400) as [Hge|Hlt].
    + destruct (Z.ltb_spec code 400); [lia|]. eexists. split; reflexivity.
    + destruct (Z.ltb_spec code 400); [|lia]. eexists. split; reflexivity.
Qed.

Lemma http_probe_classifies_status_witness :
  (exists s',
      loop_body plain "ok" (descriptor "http" true) s0 = Done tt s' /\
      rows (t s') = [["ok"; "http"; "GET:http://up.test/"; "Connected"]]) /\
  (exists s',
      loop_body plain "gone"
        (ConnectionConfig.mk "http" true "" 0 "" "" "" "http://up.test/missing" "GET" "5s"
           0 "" "" "") s0 = Done tt s' /\
      rows (t s') =
        [["gone"; "http"; "GET:http://up.test/missing";
          "Failed: HTTP request failed with status: 404"]]) /\
  (exists s',
      loop_body plain "down"
        (ConnectionConfig.mk "http" true "" 0 "" "" "" "http://up.test/broken" "GET" "5s"
           0 "" "" "") s0 = Done tt s' /\
      rows (t s') =
        [["down"; "http"; "GET:http://up.test/broken";
          "Failed: HTTP request failed with status: 500"]]).
Proof.
  split; [|split].
  - exact (proj2 (http_probe_classifies_status plain) "ok" (descriptor "http" true)
             5000000000 200 s0 eq_refl eq_refl eq_refl eq_refl).
  - exact (proj2 (http_probe_classifies_status plain) "gone"
             (ConnectionConfig.mk "http" true "" 0 "" "" "" "http://up.test/missing" "GET"
                "5s" 0 "" "" "")
             5000000000 404 s0 eq_refl eq_refl eq_refl eq_refl).
  - exact (proj2 (http_probe_classifies_status plain) "down"
             (ConnectionConfig.mk "http" true "" 0 "" "" "" "http://up.test/broken" "GET"
                "5s" 0 "" "" "")
             5000000000 500 s0 eq_refl eq_refl eq_refl eq_refl).
Defined.

(** ** C6 *)

Example describe_http :
  HTTPConfig.GetDescription (HTTPConfig.mk "http://up.test/" "GET" 5000000000) =
  "GET:http://up.test/".
Proof. reflexivity. Qed.

Example describe_mysql :
  MySQLConfig.GetDescription (MySQLConfig.mk "localhost" 3306 "root" "secret" "app") =
  "mysql://root@localhost:3306/app".
Proof. reflexivity. Qed.

Example describe_redis :
  RedisConfig.GetDescription (RedisConfig.mk "10.0.0.7" 6379 "secret" 2) =
  "redis://10.0.0.7:6379/2".
Proof. reflexivity. Qed.

Example describe_pubsub :
  PubSubConfig.GetDescription (PubSubConfig.mk "proj" "{}" "events") =
  "pubsub://proj/topics/events".
Proof. reflexivity. Qed.

(** C6. [GetDescription] is a function of the probe's fields alone: it
    has the format of its kind, and calling it twice through a resource
    gives the same text twice and leaves the state, and so the log of
    library calls, untouched. *)
Theorem describe_is_pure_and_formatted :
  (forall URL Method Timeout,
      HTTPConfig.GetDescription (HTTPConfig.mk URL Method Timeout) = Method +:+ ":" +:+ URL) /\
  (forall Host Port User Password Database,
      MySQLConfig.GetDescription (MySQLConfig.mk Host Port User Password Database) =
      "mysql://" +:+ User +:+ "@" +:+ Host +:+ ":" +:+ fmt_d Port +:+ "/" +:+ Database) /\
  (forall Host Port Password DB,
      RedisConfig.GetDescription (RedisConfig.mk Host Port Password DB) =
      "redis://" +:+ Host +:+ ":" +:+ fmt_d Port +:+ "/" +:+ fmt_d DB) /\
  (forall ProjectID CredentialsJSON TopicID,
      PubSubConfig.GetDescription (PubSubConfig.mk ProjectID CredentialsJSON TopicID) =
      "pubsub://" +:+ ProjectID +:+ "/topics/" +:+ TopicID) /\
  (forall (ty : string) (checked : bool) (i : Connection.t) (s : State),
      (d1 ← Config_GetDescription (Resource.mk ty checked (Some i));
       d2 ← Config_GetDescription (Resource.mk ty checked (Some i));
       mret (d1, d2)) s =
      Done (Connection.GetDescription i, Connection.GetDescription i) s).
Proof. repeat split. Qed.

(** ** C7 *)

(** The three reasons the Pub/Sub probe gives are different texts,
    whatever the underlying errors and the topic are. *)
Lemma pubsub_reasons_differ (err1 err2 id : string) :
  "failed to create Pub/Sub client: " +:+ err1 <>
  "failed to check topic existence: " +:+ err2 /\
  "failed to create Pub/Sub client: " +:+ err1 <> "topic " +:+ id +:+ " does not exist" /\
  "failed to check topic existence: " +:+ err2 <> "topic " +:+ id +:+ " does not exist".
Proof. repeat split; simpl; discriminate. Qed.

(** C7. The Pub/Sub probe first creates a client for its project, with
    the JSON credentials as an option when the field is not empty and with
    no option (the default credentials) when it is empty.  It returns an
    error in exactly three cases, each with its own reason: the client
    could not be created, the existence check failed, the topic does not
    exist; it returns no error exactly when the existence check answers
    true. *)
Theorem pubsub_probe_outcomes (w : World) (c : PubSubConfig.t) (s : State) :
  exists opts res cs,
    (PubSubConfig.CredentialsJSON c <> EmptyString ->
     opts = [WithCredentialsJSON (PubSubConfig.CredentialsJSON c)]) /\
    (PubSubConfig.CredentialsJSON c = EmptyString -> opts = []) /\
    PubSubConfig.CheckConnection w c s = Done res (add_calls cs s) /\
    (exists rest, cs = PubSubNewClient (PubSubConfig.ProjectID c) opts :: rest) /\
    let created := pubsub_NewClient w (calls s) (PubSubConfig.ProjectID c) opts in
    let found :=
      Topic_Exists w (calls s ++ [PubSubNewClient (PubSubConfig.ProjectID c) opts])
        (PubSubConfig.TopicID c) in
    (forall err, created = Some err ->
       res = Some ("failed to create Pub/Sub client: " +:+ err) /\
       cs = [PubSubNewClient (PubSubConfig.ProjectID c) opts]) /\
    (forall err, created = None -> found = Err err ->
       res = Some ("failed to check topic existence: " +:+ err)) /\
    (created = None -> found = Ok false ->
       res = Some ("topic " +:+ PubSubConfig.TopicID c +:+ " does not exist")) /\
    (res = None <-> created = None /\ found = Ok true) /\
    (forall err1 err2,
       "failed to create Pub/Sub client: " +:+ err1 <>
       "failed to check topic existence: " +:+ err2 /\
       "failed to create Pub/Sub client: " +:+ err1 <>
       "topic " +:+ PubSubConfig.TopicID c +:+ " does not exist" /\
       "failed to check topic existence: " +:+ err2 <>
       "topic " +:+ PubSubConfig.TopicID c +:+ " does not exist").
Proof.
  pose proof (PubSub_CheckConnection_unfold w c s) as Hu. cbv zeta in Hu.
  set (opts := if negb (String.eqb (PubSubConfig.CredentialsJSON c) "")
               then [WithCredentialsJSON (PubSubConfig.CredentialsJSON c)] else []) in *.
  exists opts.
  assert (Ho1 : PubSubConfig.CredentialsJSON c <> EmptyString ->
                opts = [WithCredentialsJSON (PubSubConfig.CredentialsJSON c)]).
  { intros Hne. unfold opts. by apply String.eqb_neq in Hne as ->. }
  assert (Ho2 : PubSubConfig.CredentialsJSON c = EmptyString -> opts = []).
  { intros He. unfold opts. by apply String.eqb_eq in He as ->. }
  destruct (pubsub_NewClient w (calls s) (PubSubConfig.ProjectID c) opts) as [err|] eqn:Hn.
  - eexists _, _. split; [done|]. split; [done|]. split; [exact Hu|].
    split; [by eexists|]. cbv zeta. repeat split; try done.
    all: intuition congruence.
  - eexists _, _. split; [done|]. split; [done|]. split; [exact Hu|].
    split; [by eexists|]. cbv zeta.
    destruct (Topic_Exists w _ _) as [[]|err]; repeat split; try done.
    all: intuition congruence.
Qed.

Example pubsub_default_credentials :
  PubSubConfig.CheckConnection plain (PubSubConfig.mk "proj" "" "events") s0 =
  Done (Some "failed to create Pub/Sub client: pubsub: could not find default credentials")
       (add_calls [PubSubNewClient "proj" []] s0).
Proof. reflexivity. Qed.

Example pubsub_topic_found :
  PubSubConfig.CheckConnection plain (PubSubConfig.mk "proj" "{}" "events") s0 =
  Done None
       (add_calls [PubSubNewClient "proj" [WithCredentialsJSON "{}"];
                   TopicExists "events"; PubSubClose] s0).
Proof. reflexivity. Qed.

Example pubsub_topic_missing :
  PubSubConfig.CheckConnection plain (PubSubConfig.mk "proj" "{}" "orders") s0 =
  Done (Some "topic orders does not exist")
       (add_calls [PubSubNewClient "proj" [WithCredentialsJSON "{}"];
                   TopicExists "orders"; PubSubClose] s0).
Proof. reflexivity. Qed.

(** ** C8 *)

(** C8. A mysql descriptor always materializes, into the probe made of
    its host, port, user, password and database; a redis descriptor always
    materializes, into the probe made of its host, port, password and db.
    So two descriptors of one of these kinds that agree on those fields
    give the same probe, whatever their other fields hold and whatever
    [time.ParseDuration] would say of them. *)
Theorem mysql_redis_ignore_other_fields (w w' : World) (name name' : string)
  (c c' : ConnectionConfig.t) :
  (ConnectionConfig.Type_ c = "mysql" -> ConnectionConfig.Type_ c' = "mysql" ->
   agree_mysql c c' ->
   exists probe,
     probe = {| MySQLConfig.Host := ConnectionConfig.Host c;
                MySQLConfig.Port := ConnectionConfig.Port c;
                MySQLConfig.User := ConnectionConfig.User c;
                MySQLConfig.Password := ConnectionConfig.Password c;
                MySQLConfig.Database := ConnectionConfig.Database c |} /\
     createResource w name c =
       Ok (Resource.mk "mysql" (ConnectionConfig.IsChecked c)
             (Some (Connection.MySQL probe))) /\
     createResource w' name' c' =
       Ok (Resource.mk "mysql" (ConnectionConfig.IsChecked c')
             (Some (Connection.MySQL probe)))) /\
  (ConnectionConfig.Type_ c = "redis" -> ConnectionConfig.Type_ c' = "redis" ->
   agree_redis c c' ->
   exists probe,
     probe = {| RedisConfig.Host := ConnectionConfig.Host c;
                RedisConfig.Port := ConnectionConfig.Port c;
                RedisConfig.Password := ConnectionConfig.Password c;
                RedisConfig.DB := ConnectionConfig.DB c |} /\
     createResource w name c =
       Ok (Resource.mk "redis" (ConnectionConfig.IsChecked c)
             (Some (Connection.Redis probe))) /\
     createResource w' name' c' =
       Ok (Resource.mk "redis" (ConnectionConfig.IsChecked c')
             (Some (Connection.Redis probe)))).
Proof.
  split.
  - intros Hty Hty' (Hh & Hp & Hu & Hw & Hd). eexists. split; [reflexivity|].
    unfold createResource. rewrite Hty, Hty', Hh, Hp, Hu, Hw, Hd. by split.
  - intros Hty Hty' (Hh & Hp & Hw & Hd). eexists. split; [reflexivity|].
    unfold createResource. rewrite Hty, Hty', Hh, Hp, Hw, Hd. by split.
Qed.

Lemma mysql_redis_ignore_other_fields_witness :
  (exists probe,
     probe = MySQLConfig.mk "localhost" 3306 "root" "secret" "app" /\
     createResource plain "db1" (descriptor "mysql" true) =
       Ok (Resource.mk "mysql" true (Some (Connection.MySQL probe))) /\
     createResource ansi "db2"
       (ConnectionConfig.mk "mysql" false "localhost" 3306 "root" "secret" "app"
          "not a url" "POST" "bogus" 7 "other" "{}" "orders") =
       Ok (Resource.mk "mysql" false (Some (Connection.MySQL probe)))) /\
  (exists probe,
     probe = RedisConfig.mk "localhost" 3306 "secret" 0 /\
     createResource plain "cache1" (descriptor "redis" true) =
       Ok (Resource.mk "redis" true (Some (Connection.Redis probe))) /\
     createResource ansi "cache2"
       (ConnectionConfig.mk "redis" false "localhost" 3306 "nobody" "secret" "none"
          "not a url" "POST" "bogus" 0 "other" "{}" "orders") =
       Ok (Resource.mk "redis" false (Some (Connection.Redis probe)))).
Proof.
  split.
  - apply (proj1 (mysql_redis_ignore_other_fields plain ansi "db1" "db2"
                    (descriptor "mysql" true)
                    (ConnectionConfig.mk "mysql" false "localhost" 3306 "root" "secret" "app"
                       "not a url" "POST" "bogus" 7 "other" "{}" "orders")));
      [reflexivity|reflexivity|repeat split].
  - apply (proj2 (mysql_redis_ignore_other_fields plain ansi "cache1" "cache2"
                    (descriptor "redis" true)
                    (ConnectionConfig.mk "redis" false "localhost" 3306 "nobody" "secret"
                       "none" "not a url" "POST" "bogus" 0 "other" "{}" "orders")));
      [reflexivity|reflexivity|repeat split].
Defined.

(** ** C10 *)

Lemma turn_description (w : World) name connConfig s s1 row :
  turn w name connConfig s s1 row -> col_Description row = description_of w name connConfig.
Proof.
  unfold description_of.
  destruct 1 as [e0 Hc|? ? Hc Hi|? ? ? ? Hc Hi|? ? ? Hc Hi]; rewrite Hc, ?Hi; reflexivity.
Qed.

Lemma description_of_with_Password (w : World) name pw c :
  description_of w name (with_Password pw c) = description_of w name c.
Proof.
  unfold description_of, createResource. simpl.
  repeat match goal with
         | |- context [if ?b then _ else _] => destruct b
         | |- context [ParseDuration w ?x] => destruct (ParseDuration w x)
         end; reflexivity.
Qed.

Lemma range_descriptions (w : World) entries s :
  exists new s',
    range w entries s = Done tt s' /\
    t s' = {| header := header (t s); rows := rows (t s) ++ new |} /\
    col_Description <$> new = (fun entry => description_of w entry.1 entry.2) <$> entries.
Proof.
  destruct (range_turns w entries s) as (new & s' & Hr & Hts).
  destruct (turns_table _ _ _ _ _ Hts) as (Ht & _ & _).
  exists new, s'. split; [done|]. split; [done|].
  apply Forall2_fmap_eq.
  apply (turns_Forall2 w (fun entry row => col_Description row = description_of w entry.1 entry.2)
           entries s new s'); [|done].
  intros. by eapply turn_description.
Qed.

(** C10. The MySQL probe opens with a DSN that holds the password and
    the Redis probe gives the password to its client, but neither
    description depends on it: probes that differ only in Password have
    the same description.  In a run, changing only the Password of the
    descriptors changes no Description cell of the report. *)
Theorem password_not_in_description :
  (forall Host Port User Password Password' Database,
      MySQLConfig.GetDescription (MySQLConfig.mk Host Port User Password Database) =
      MySQLConfig.GetDescription (MySQLConfig.mk Host Port User Password' Database)) /\
  (forall Host Port Password Password' DB,
      RedisConfig.GetDescription (RedisConfig.mk Host Port Password DB) =
      RedisConfig.GetDescription (RedisConfig.mk Host Port Password' DB)) /\
  (forall w Host Port User Password Database s,
      exists res rest,
        MySQLConfig.CheckConnection w (MySQLConfig.mk Host Port User Password Database) s =
        Done res
          (add_calls
             (SQLOpen "mysql"
                (User +:+ ":" +:+ Password +:+ "@tcp(" +:+ Host +:+ ":" +:+ fmt_d Port
                   +:+ ")/" +:+ Database +:+ "?timeout=5s") :: rest) s)) /\
  (forall w Host Port Password DB s,
      exists res,
        RedisConfig.CheckConnection w (RedisConfig.mk Host Port Password DB) s =
        Done res
          (add_calls
             [RedisNewClient (Host +:+ ":" +:+ fmt_d Port) Password DB;
              RedisPing; RedisClose] s)) /\
  (forall w entries entries' s1 s2,
      Forall2 (fun entry entry' =>
                 entry'.1 = entry.1 /\ exists pw, entry'.2 = with_Password pw entry.2)
              entries entries' ->
      exists new new' s1' s2',
        range w entries s1 = Done tt s1' /\
        t s1' = {| header := header (t s1); rows := rows (t s1) ++ new |} /\
        range w entries' s2 = Done tt s2' /\
        t s2' = {| header := header (t s2); rows := rows (t s2) ++ new' |} /\
        col_Description <$> new = col_Description <$> new').
Proof.
  split; [done|]. split; [done|]. split; [|split].
  - intros. rewrite MySQL_CheckConnection_unfold. simpl.
    destruct (sql_Open _ _ _ _); by eexists _, _.
  - intros. rewrite Redis_CheckConnection_unfold. by eexists.
  - intros w entries entries' s1 s2 HF.
    destruct (range_descriptions w entries s1) as (new & s1' & Hr & Ht & Hd).
    destruct (range_descriptions w entries' s2) as (new' & s2' & Hr' & Ht' & Hd').
    exists new, new', s1', s2'. repeat split; try done.
    rewrite Hd, Hd'. clear -HF.
    induction HF as [|[n c] [n' c'] l l' (Hn & pw & Hc) _ IH]; [done|].
    rewrite !fmap_cons, IH. simpl in *. subst.
    by rewrite description_of_with_Password.
Qed.

Lemma password_not_in_description_witness :
  exists new new' s1' s2',
    range plain [("db1", descriptor "mysql" true); ("cache1", descriptor "redis" false)] s0 =
      Done tt s1' /\
    t s1' = {| header := header (t s0); rows := rows (t s0) ++ new |} /\
    range plain [("db1", with_Password "hunter2" (descriptor "mysql" true));
                 ("cache1", with_Password "" (descriptor "redis" false))] s0 =
      Done tt s2' /\
    t s2' = {| header := header (t s0); rows := rows (t s0) ++ new' |} /\
    col_Description <$> new = col_Description <$> new'.
Proof.
  apply (proj2 (proj2 (proj2 (proj2 password_not_in_description)))).
  repeat constructor; simpl; by eexists.
Defined.

(** * Further properties of the command *)

(** ** Reading the configuration *)

(** X1. When the configuration file cannot be read, [RunE] returns the
    read error behind the prefix of [parseConfig] and does nothing else:
    no table is created or rendered and no library is called. *)
Theorem RunE_config_error (w : World) (s : State) (err : error) :
  ReadInConfig w "cmd/default.yaml" = Err err ->
  RunE w s = Done (Some ("failed to read config file: " +:+ err)) s.
Proof. intros Hr. unfold RunE, parseConfig. by rewrite Hr. Qed.

Lemma RunE_config_error_witness :
  RunE unreadable s0 =
  Done (Some "failed to read config file: open cmd/default.yaml: no such file or directory")
       s0.
Proof.
  exact (RunE_config_error unreadable s0
           "open cmd/default.yaml: no such file or directory" eq_refl).
Defined.

Lemma foldr_insert_lookup {A : Type} (f : string -> A) (l : list string) (name : string) :
  foldr (fun k (m : gmap string A) => <[k := f k]> m) ∅ l !! name =
  if decide (name ∈ l) then Some (f name) else None.
Proof.
  induction l as [|k l IH]; simpl.
  - rewrite lookup_empty. destruct (decide (name ∈ [])) as [H|H]; [|done].
    by apply elem_of_nil in H.
  - destruct (decide (k = name)) as [->|Hne].
    + rewrite lookup_insert_eq. destruct (decide (name ∈ name :: l)) as [H|H]; [done|].
      exfalso. apply H. by left.
    + rewrite lookup_insert_ne by done. rewrite IH.
      destruct (decide (name ∈ l)) as [H|H];
        destruct (decide (name ∈ k :: l)) as [H'|H']; try done.
      * exfalso. apply H'. by right.
      * exfalso. apply elem_of_cons in H' as [->|?]; done.
Qed.

(** X2. When the file is read, [parseConfig] returns a map whose keys
    are exactly the keys under [check.connections]; the entry of a name
    has every field read from the setting [check.connections.<name>.<key>]
    of that name, and a name that is not a key has no entry. *)
Theorem parseConfig_entries (w : World) (configPath : string) (v : Viper) :
  ReadInConfig w configPath = Ok v ->
  exists connections,
    parseConfig w configPath = Ok connections /\
    dom connections = GetStringMap v "check.connections" /\
    size connections = size (GetStringMap v "check.connections") /\
    (forall name, name ∉ GetStringMap v "check.connections" -> connections !! name = None) /\
    forall name,
      name ∈ GetStringMap v "check.connections" ->
      exists c,
        connections !! name = Some c /\
        let prefix := "check.connections." +:+ name in
        ConnectionConfig.Type_ c = GetString v (prefix +:+ ".type") /\
        ConnectionConfig.IsChecked c = GetBool v (prefix +:+ ".is_checked") /\
        ConnectionConfig.Host c = GetString v (prefix +:+ ".host") /\
        ConnectionConfig.Port c = GetInt v (prefix +:+ ".port") /\
        ConnectionConfig.User c = GetString v (prefix +:+ ".user") /\
        ConnectionConfig.Password c = GetString v (prefix +:+ ".password") /\
        ConnectionConfig.Database c = GetString v (prefix +:+ ".database") /\
        ConnectionConfig.URL c = GetString v (prefix +:+ ".url") /\
        ConnectionConfig.Method c = GetString v (prefix +:+ ".method") /\
        ConnectionConfig.Timeout c = GetString v (prefix +:+ ".timeout") /\
        ConnectionConfig.DB c = GetInt v (prefix +:+ ".db") /\
        ConnectionConfig.ProjectID c = GetString v (prefix +:+ ".project_id") /\
        ConnectionConfig.CredentialsJSON c = GetString v (prefix +:+ ".credentials_json") /\
        ConnectionConfig.TopicID c = GetString v (prefix +:+ ".topic_id").
Proof.
  intros Hr.
  set (keys := GetStringMap v "check.connections").
  assert (Hpc : exists entry : string -> ConnectionConfig.t,
             parseConfig w configPath =
             Ok (foldr (fun k (m : gmap string ConnectionConfig.t) => <[k := entry k]> m) ∅
                       (elements keys)) /\
             forall name, entry name =
               let prefix := "check.connections." +:+ name in
               {| ConnectionConfig.Type_ := GetString v (prefix +:+ ".type");
                  ConnectionConfig.IsChecked := GetBool v (prefix +:+ ".is_checked");
                  ConnectionConfig.Host := GetString v (prefix +:+ ".host");
                  ConnectionConfig.Port := GetInt v (prefix +:+ ".port");
                  ConnectionConfig.User := GetString v (prefix +:+ ".user");
                  ConnectionConfig.Password := GetString v (prefix +:+ ".password");
                  ConnectionConfig.Database := GetString v (prefix +:+ ".database");
                  ConnectionConfig.URL := GetString v (prefix +:+ ".url");
                  ConnectionConfig.Method := GetString v (prefix +:+ ".method");
                  ConnectionConfig.Timeout := GetString v (prefix +:+ ".timeout");
                  ConnectionConfig.DB := GetInt v (prefix +:+ ".db");
                  ConnectionConfig.ProjectID := GetString v (prefix +:+ ".project_id");
                  ConnectionConfig.CredentialsJSON :=
                    GetString v (prefix +:+ ".credentials_json");
                  ConnectionConfig.TopicID := GetString v (prefix +:+ ".topic_id") |}).
  { eexists. split; [unfold parseConfig; rewrite Hr; reflexivity|]. reflexivity. }
  destruct Hpc as (entry & Hpc & Hentry).
  eexists. split; [exact Hpc|].
  assert (Hlk : forall name,
             foldr (fun k (m : gmap string ConnectionConfig.t) => <[k := entry k]> m) ∅
                   (elements keys) !! name =
             if decide (name ∈ keys) then Some (entry name) else None).
  { intros name. rewrite foldr_insert_lookup.
    destruct (decide (name ∈ elements keys)) as [H|H], (decide (name ∈ keys)) as [H'|H'];
      try done; rewrite elem_of_elements in H; done. }
  assert (Hdom : dom (foldr (fun k (m : gmap string ConnectionConfig.t) => <[k := entry k]> m) ∅
                        (elements keys)) = keys).
  { apply set_eq. intros name. rewrite elem_of_dom, Hlk.
    destruct (decide (name ∈ keys)) as [H|H].
    - split; [done|by eexists].
    - split; [by intros [? ?]|done]. }
  split; [exact Hdom|]. split.
  { match goal with |- size ?m = _ => pose proof (size_dom m) as Hs end.
    rewrite Hdom in Hs. by symmetry. }
  split.
  - intros name Hn. rewrite Hlk. by case_decide.
  - intros name Hn. exists (entry name). rewrite Hlk. case_decide; [|done].
    split; [done|]. rewrite Hentry. simpl. repeat split.
Qed.

Lemma parseConfig_entries_witness :
  exists connections,
    parseConfig plain "cmd/default.yaml" = Ok connections /\
    dom connections = {[ "db1"; "cache1" ]} /\
    connections !! "db1" =
      Some (ConnectionConfig.mk "mysql" true "unreachable" 0 "" "" "" "" "" "" 0 "" "" "").
Proof.
  destruct (parseConfig_entries plain "cmd/default.yaml" sample_Viper eq_refl)
    as (connections & Hp & Hd & _ & _ & He).
  exists connections. split; [exact Hp|]. split; [exact Hd|].
  destruct (He "db1") as (c & Hc & Hf).
  - simpl. set_solver.
  - rewrite Hc. f_equal. destruct c. simpl in Hf. vm_compute in Hf.
    destruct Hf as (-> & -> & -> & -> & -> & -> & -> & -> & -> & -> & -> & -> & -> & ->).
    reflexivity.
Defined.

(** ** The factory, all kinds *)

(** X3. [createResource] fails in two cases only: kind http with a
    timeout that [time.ParseDuration] rejects, and a kind that is none of
    mysql, http, redis, pubsub, in which case the error names the
    offending kind. *)
Theorem createResource_fails_iff (w : World) (name : string) (config : ConnectionConfig.t)
  (e : error) :
  createResource w name config = Err e <->
  (ConnectionConfig.Type_ config = "http" /\
   exists err, ParseDuration w (ConnectionConfig.Timeout config) = Err err /\
               e = "invalid timeout format: " +:+ err) \/
  (ConnectionConfig.Type_ config <> "mysql" /\ ConnectionConfig.Type_ config <> "http" /\
   ConnectionConfig.Type_ config <> "redis" /\ ConnectionConfig.Type_ config <> "pubsub" /\
   e = "unsupported resource type: " +:+ ConnectionConfig.Type_ config).
Proof.
  unfold createResource.
  destruct (String.eqb_spec (ConnectionConfig.Type_ config) "mysql") as [Hm|Hm].
  { split; [discriminate|]. intros [[Hh _]|[Hn _]]; [|done]. rewrite Hm in Hh. discriminate. }
  destruct (String.eqb_spec (ConnectionConfig.Type_ config) "http") as [Hh|Hh].
  { destruct (ParseDuration w _) as [d|err].
    - split; [discriminate|]. intros [(_ & err & He & _)|(_ & Hn & _)]; [discriminate|done].
    - split.
      + intros He. inversion He. left. split; [done|]. by exists err.
      + intros [(_ & err' & He & ->)|(_ & Hn & _)]; [by inversion He|done]. }
  destruct (String.eqb_spec (ConnectionConfig.Type_ config) "redis") as [Hr|Hr].
  { split; [discriminate|]. intros [[? _]|(_ & _ & ? & _)]; done. }
  destruct (String.eqb_spec (ConnectionConfig.Type_ config) "pubsub") as [Hp|Hp].
  { split; [discriminate|]. intros [[? _]|(_ & _ & _ & ? & _)]; done. }
  split.
  - intros He. inversion He. by right.
  - intros [[? _]|(_ & _ & _ & _ & ->)]; done.
Qed.

Example createResource_unsupported :
  createResource plain "files" (descriptor "ftp" true) =
  Err "unsupported resource type: ftp".
Proof. reflexivity. Qed.

Example createResource_kind_is_case_sensitive :
  createResource plain "db" (descriptor "MySQL" true) =
  Err "unsupported resource type: MySQL".
Proof. reflexivity. Qed.

(** X4. The probe of a created resource is of the kind the descriptor
    declares: the Type kept in the resource, the descriptor's kind and the
    probe's own kind are the same string. *)
Theorem probe_kind_is_declared_kind (w : World) (name : string)
  (config : ConnectionConfig.t) (resource : Resource.t) :
  createResource w name config = Ok resource ->
  exists i,
    Resource.Config resource = Some i /\
    kind_of i = ConnectionConfig.Type_ config /\
    Resource.Type_ resource = kind_of i.
Proof.
  unfold createResource.
  destruct (String.eqb_spec (ConnectionConfig.Type_ config) "mysql") as [Hm|Hm].
  { intros H. inversion H. eexists. by rewrite Hm. }
  destruct (String.eqb_spec (ConnectionConfig.Type_ config) "http") as [Hh|Hh].
  { destruct (ParseDuration w _); [|discriminate].
    intros H. inversion H. eexists. by rewrite Hh. }
  destruct (String.eqb_spec (ConnectionConfig.Type_ config) "redis") as [Hr|Hr].
  { intros H. inversion H. eexists. by rewrite Hr. }
  destruct (String.eqb_spec (ConnectionConfig.Type_ config) "pubsub") as [Hp|Hp].
  { intros H. inversion H. eexists. by rewrite Hp. }
  discriminate.
Qed.

Lemma probe_kind_is_declared_kind_witness :
  exists i,
    Some (Connection.PubSub (PubSubConfig.mk "proj" "" "events")) = Some i /\
    kind_of i = "pubsub" /\ "pubsub" = kind_of i.
Proof.
  exact (probe_kind_is_declared_kind plain "topic" (descriptor "pubsub" true)
           (Resource.mk "pubsub" true
              (Some (Connection.PubSub (PubSubConfig.mk "proj" "" "events"))))
           eq_refl).
Defined.

(** X5. A pubsub descriptor always materializes, into the probe made of
    its project id, credentials and topic id; its other fields, and what
    [time.ParseDuration] would say of its timeout, play no part. *)
Theorem pubsub_ignores_other_fields (w w' : World) (name name' : string)
  (c c' : ConnectionConfig.t) :
  ConnectionConfig.Type_ c = "pubsub" -> ConnectionConfig.Type_ c' = "pubsub" ->
  agree_pubsub c c' ->
  exists probe,
    probe = {| PubSubConfig.ProjectID := ConnectionConfig.ProjectID c;
               PubSubConfig.CredentialsJSON := ConnectionConfig.CredentialsJSON c;
               PubSubConfig.TopicID := ConnectionConfig.TopicID c |} /\
    createResource w name c =
      Ok (Resource.mk "pubsub" (ConnectionConfig.IsChecked c)
            (Some (Connection.PubSub probe))) /\
    createResource w' name' c' =
      Ok (Resource.mk "pubsub" (ConnectionConfig.IsChecked c')
            (Some (Connection.PubSub probe))).
Proof.
  intros Hty Hty' (Hp & Hc & Ht). eexists. split; [reflexivity|].
  unfold createResource. rewrite Hty, Hty', Hp, Hc, Ht. by split.
Qed.

Lemma pubsub_ignores_other_fields_witness :
  exists probe,
    probe = PubSubConfig.mk "proj" "" "events" /\
    createResource plain "topic" (descriptor "pubsub" true) =
      Ok (Resource.mk "pubsub" true (Some (Connection.PubSub probe))) /\
    createResource ansi "topic2"
      (ConnectionConfig.mk "pubsub" false "elsewhere" 1 "nobody" "pw" "none"
         "not a url" "POST" "bogus" 7 "proj" "" "events") =
      Ok (Resource.mk "pubsub" false (Some (Connection.PubSub probe))).
Proof.
  apply (pubsub_ignores_other_fields plain ansi "topic" "topic2"
           (descriptor "pubsub" true)
           (ConnectionConfig.mk "pubsub" false "elsewhere" 1 "nobody" "pw" "none"
              "not a url" "POST" "bogus" 7 "proj" "" "events"));
    [reflexivity|reflexivity|repeat split].
Defined.

(** ** The MySQL and Redis probes *)

(** X6. The MySQL probe opens the driver mysql with the DSN
    user:password@tcp(host:port)/database?timeout=5s.  When opening fails
    it returns the connect error and does nothing more: no ping, no close.
    Otherwise it pings once and closes, whether or not the ping failed;
    a failed ping is returned as the ping error, and the probe returns no
    error exactly when both the open and the ping succeed. *)
Theorem mysql_probe_outcomes (w : World) (c : MySQLConfig.t) (s : State) :
  let open_call :=
    SQLOpen "mysql"
      (MySQLConfig.User c +:+ ":" +:+ MySQLConfig.Password c +:+ "@tcp("
         +:+ MySQLConfig.Host c +:+ ":" +:+ fmt_d (MySQLConfig.Port c) +:+ ")/"
         +:+ MySQLConfig.Database c +:+ "?timeout=5s") in
  let opened := sql_Open w (calls s) "mysql" (MySQLConfig.dsn c) in
  let pinged := DB_Ping w (calls s ++ [open_call]) in
  exists res cs,
    MySQLConfig.CheckConnection w c s = Done res (add_calls cs s) /\
    (forall err, opened = Some err ->
       res = Some ("failed to connect to MySQL: " +:+ err) /\ cs = [open_call]) /\
    (opened = None -> cs = [open_call; DBPing; DBClose]) /\
    (forall err, opened = None -> pinged = Some err ->
       res = Some ("MySQL ping failed: " +:+ err)) /\
    (res = None <-> opened = None /\ pinged = None).
Proof.
  cbv zeta. rewrite MySQL_CheckConnection_unfold. unfold MySQLConfig.dsn.
  destruct (sql_Open w (calls s) _ _) as [err|].
  - eexists _, _. split; [reflexivity|]. repeat split; try done.
    all: intuition congruence.
  - destruct (DB_Ping w _) as [err|]; eexists _, _; (split; [reflexivity|]);
      repeat split; try done.
    all: intuition congruence.
Qed.

(** X7. The Redis probe creates a client for host:port with the
    password and db index, pings once and closes the client, in this
    order and whether or not the ping failed; it returns no error exactly
    when the ping succeeds, and the ping error behind its prefix otherwise. *)
Theorem redis_probe_outcomes (w : World) (c : RedisConfig.t) (s : State) :
  let new_client :=
    RedisNewClient (RedisConfig.Host c +:+ ":" +:+ fmt_d (RedisConfig.Port c))
      (RedisConfig.Password c) (RedisConfig.DB c) in
  let pinged := redis_Ping w (calls s ++ [new_client]) in
  exists res,
    RedisConfig.CheckConnection w c s =
      Done res (add_calls [new_client; RedisPing; RedisClose] s) /\
    (res = None <-> pinged = None) /\
    (forall err, pinged = Some err -> res = Some ("Redis ping failed: " +:+ err)).
Proof.
  cbv zeta. pose proof (Redis_CheckConnection_unfold w c s) as Hu. cbv zeta in Hu.
  rewrite Hu. destruct (redis_Ping w _) as [err|]; eexists; (split; [reflexivity|]);
    split; try done.
  intros err' He. by inversion He.
Qed.

(** ** The loop and the library calls *)

Lemma CheckConnection_at_most_three (w : World) (i : Connection.t) (s : State) :
  exists res cs,
    Connection.CheckConnection w i s = Done res (add_calls cs s) /\ (length cs <= 3)%nat.
Proof.
  destruct i as [c|c|c|c]; simpl.
  - rewrite MySQL_CheckConnection_unfold. destruct (sql_Open _ _ _ _);
      eexists _, _; (split; [reflexivity|simpl; lia]).
  - rewrite HTTP_CheckConnection_unfold. destruct (client_Get _ _ _ _);
      eexists _, _; (split; [reflexivity|simpl; lia]).
  - rewrite Redis_CheckConnection_unfold. eexists _, _; (split; [reflexivity|simpl; lia]).
  - rewrite PubSub_CheckConnection_unfold. destruct (pubsub_NewClient _ _ _ _);
      eexists _, _; (split; [reflexivity|simpl; lia]).
Qed.

Lemma turn_calls (w : World) name connConfig s s1 row :
  turn w name connConfig s s1 row ->
  exists cs,
    s1 = add_calls cs s /\ (length cs <= 3)%nat /\
    (attempts w (name, connConfig) = false -> cs = []).
Proof.
  destruct 1 as [e0 Hc|resource i Hc Hi Hk|resource i e0 cs Hc Hi Hk Hr|resource i cs Hc Hi Hk Hr].
  - exists []. rewrite add_calls_nil. split; [done|split; [simpl; lia|done]].
  - exists []. rewrite add_calls_nil. split; [done|split; [simpl; lia|done]].
  - exists cs. split; [done|]. split.
    + destruct (CheckConnection_at_most_three w i s) as (res & cs' & Hr' & Hle).
      rewrite Hr in Hr'. injection Hr' as _ Heq.
      by rewrite (app_inv_head _ _ _ Heq).
    + unfold attempts. simpl. rewrite Hc, Hk. discriminate.
  - exists cs. split; [done|]. split.
    + destruct (CheckConnection_at_most_three w i s) as (res & cs' & Hr' & Hle).
      rewrite Hr in Hr'. injection Hr' as _ Heq.
      by rewrite (app_inv_head _ _ _ Heq).
    + unfold attempts. simpl. rewrite Hc, Hk. discriminate.
Qed.

Lemma turns_calls (w : World) entries s new s' :
  turns w entries s new s' ->
  exists cs,
    calls s' = calls s ++ cs /\
    (length cs <= 3 * length (List.filter (attempts w) entries))%nat.
Proof.
  induction 1 as [s|name connConfig rest s s1 row new s' Ht _ (cs2 & Hcs & Hle)].
  - exists []. by rewrite app_nil_r.
  - destruct (turn_calls _ _ _ _ _ _ Ht) as (cs1 & -> & Hle1 & Hnone).
    exists (cs1 ++ cs2). simpl in Hcs. split; [by rewrite Hcs, app_assoc|].
    rewrite length_app. simpl. destruct (attempts w (name, connConfig)); simpl.
    + lia.
    + rewrite (Hnone eq_refl). simpl. lia.
Qed.

Lemma CheckConnection_one_opening (w : World) (i : Connection.t) (s : State) :
  exists res cs,
    Connection.CheckConnection w i s = Done res (add_calls cs s) /\
    length (List.filter is_opening cs) = 1%nat.
Proof.
  destruct i as [c|c|c|c]; simpl.
  - rewrite MySQL_CheckConnection_unfold. destruct (sql_Open _ _ _ _);
      eexists _, _; (split; reflexivity).
  - rewrite HTTP_CheckConnection_unfold. destruct (client_Get _ _ _ _);
      eexists _, _; (split; reflexivity).
  - rewrite Redis_CheckConnection_unfold. eexists _, _; (split; reflexivity).
  - rewrite PubSub_CheckConnection_unfold. destruct (pubsub_NewClient _ _ _ _);
      eexists _, _; (split; reflexivity).
Qed.

Lemma turn_openings (w : World) name connConfig s s1 row :
  turn w name connConfig s s1 row ->
  exists cs,
    s1 = add_calls cs s /\
    length (List.filter is_opening cs) =
      if attempts w (name, connConfig) then 1%nat else 0%nat.
Proof.
  destruct 1 as [e0 Hc|resource i Hc Hi Hk|resource i e0 cs Hc Hi Hk Hr|resource i cs Hc Hi Hk Hr];
    unfold attempts; simpl; rewrite Hc, ?Hk.
  - exists []. by rewrite add_calls_nil.
  - exists []. by rewrite add_calls_nil.
  - exists cs. split; [done|].
    destruct (CheckConnection_one_opening w i s) as (res & cs' & Hr' & Hone).
    rewrite Hr in Hr'. injection Hr' as _ Heq. by rewrite (app_inv_head _ _ _ Heq).
  - exists cs. split; [done|].
    destruct (CheckConnection_one_opening w i s) as (res & cs' & Hr' & Hone).
    rewrite Hr in Hr'. injection Hr' as _ Heq. by rewrite (app_inv_head _ _ _ Heq).
Qed.

(** X8. In a run, every entry whose connection is attempted (a resource
    is created and it is checked) makes exactly one call that opens a client
    or a connection, and the other entries make none: the opening calls
    that the run adds to the log are as many as the attempted entries. *)
Theorem one_opening_call_per_attempt (w : World)
  (entries : list (string * ConnectionConfig.t)) (s : State) :
  exists cs s',
    range w entries s = Done tt s' /\
    calls s' = calls s ++ cs /\
    length (List.filter is_opening cs) = length (List.filter (attempts w) entries).
Proof.
  destruct (range_turns w entries s) as (new & s' & Hr & Hts).
  assert (H : exists cs, calls s' = calls s ++ cs /\
                length (List.filter is_opening cs) =
                length (List.filter (attempts w) entries)).
  { clear Hr. induction Hts as [s|name connConfig rest s s1 row new s' Ht _ (cs2 & Hcs & Hn)].
    - exists []. by rewrite app_nil_r.
    - destruct (turn_openings _ _ _ _ _ _ Ht) as (cs1 & -> & Hone).
      exists (cs1 ++ cs2). simpl in Hcs. split; [by rewrite Hcs, app_assoc|].
      rewrite List.filter_app, length_app, Hone, Hn. simpl.
      by destruct (attempts w (name, connConfig)). }
  destruct H as (cs & Hcs & Hn). by exists cs, s'.
Qed.

Example openings_of_a_run :
  match range plain [("a", descriptor "http" true); ("b", descriptor "ftp" true);
                     ("c", descriptor "pubsub" true); ("d", descriptor "redis" false);
                     ("e", descriptor "mysql" true)] s0 with
  | Done _ s' => List.filter is_opening (calls s')
  | Panic _ => []
  end =
  [HTTPGet 5000000000 "http://up.test/"; PubSubNewClient "proj" [];
   SQLOpen "mysql" "root:secret@tcp(localhost:3306)/app?timeout=5s"].
Proof. vm_compute. reflexivity. Qed.

(** X9. A run in which no entry is both created and checked (each is
    unchecked, of an unsupported kind, or http with a bad timeout) calls no
    library at all. *)
Theorem no_call_without_attempt (w : World) (entries : list (string * ConnectionConfig.t))
  (s : State) :
  Forall (fun entry => attempts w entry = false) entries ->
  exists s', range w entries s = Done tt s' /\ calls s' = calls s.
Proof.
  intros Hall.
  destruct (range_turns w entries s) as (new & s' & Hr & Hts).
  destruct (turns_calls _ _ _ _ _ Hts) as (cs & Hcs & Hle).
  exists s'. split; [done|].
  assert (Hf : List.filter (attempts w) entries = []).
  { clear -Hall. induction Hall as [|e l He _ IH]; [done|]. simpl. by rewrite He. }
  rewrite Hf in Hle. simpl in Hle. destruct cs; [by rewrite app_nil_r in Hcs|simpl in Hle; lia].
Qed.

Lemma no_call_without_attempt_witness :
  exists s',
    range plain [("a", descriptor "mysql" false); ("b", descriptor "ftp" true);
                 ("c", ConnectionConfig.mk "http" true "" 0 "" "" "" "http://up.test/" "GET"
                         "bogus" 0 "" "" "")] s0 = Done tt s' /\
    calls s' = calls s0.
Proof.
  apply (no_call_without_attempt plain). repeat constructor.
Defined.

(** X10. The row of a created and checked descriptor reports what its
    probe returned: Connected when the probe returned no error, Failed
    with the probe's error text otherwise; the description is the
    probe's, and the state is the one the probe left, plus the row. *)
Theorem checked_row_reports_probe_result (w : World) (name : string)
  (connConfig : ConnectionConfig.t) (resource : Resource.t) (i : Connection.t)
  (s s1 : State) (res : option error) :
  createResource w name connConfig = Ok resource ->
  Resource.Config resource = Some i ->
  ConnectionConfig.IsChecked connConfig = true ->
  Connection.CheckConnection w i s = Done res s1 ->
  loop_body w name connConfig s =
  Done tt (add_row [name; ConnectionConfig.Type_ connConfig; Connection.GetDescription i;
                    match res with
                    | None => Sprint w text.FgGreen "Connected"
                    | Some err => Sprint w text.FgRed ("Failed: " +:+ err)
                    end] s1).
Proof.
  intros Hc Hi Hk Hr. destruct (createResource_Ok _ _ _ _ Hc) as (_ & Hk' & _).
  rewrite Hk in Hk'. unfold loop_body, Config_CheckConnection, Config_GetDescription.
  rewrite Hc, Hk', Hi. simpl. rewrite bind_unfold, Hr. by destruct res.
Qed.

Lemma checked_row_reports_probe_result_witness :
  loop_body plain "db1" (descriptor "mysql" true) s0 =
  Done tt
    (add_row ["db1"; "mysql"; "mysql://root@localhost:3306/app";
              "Failed: MySQL ping failed: dial tcp: lookup unreachable: no such host"]
       (add_calls [SQLOpen "mysql" "root:secret@tcp(localhost:3306)/app?timeout=5s";
                   DBPing; DBClose] s0)).
Proof.
  exact (checked_row_reports_probe_result plain "db1" (descriptor "mysql" true)
           (Resource.mk "mysql" true
              (Some (Connection.MySQL (MySQLConfig.mk "localhost" 3306 "root" "secret" "app"))))
           (Connection.MySQL (MySQLConfig.mk "localhost" 3306 "root" "secret" "app"))
           s0 _ _ eq_refl eq_refl eq_refl eq_refl).
Defined.

(** The command, once [parseConfig] has returned the connections. *)
Lemma RunE_of_connections (w : World) (connections : gmap string ConnectionConfig.t)
  (s : State) :
  parseConfig w "cmd/default.yaml" = Ok connections ->
  exists new cs s',
    RunE w s = Done None s' /\
    t s' = {| header := [["Name"; "Type"; "Description"; "Status"]]; rows := new |} /\
    stdout s' = stdout s ++ [t s'] /\
    calls s' = calls s ++ cs /\
    col_Name <$> new ≡ₚ (map_to_list connections).*1 /\
    length new = size connections.
Proof.
  intros Hp. unfold RunE. rewrite Hp. run. unfold NewWriter, AppendHeader. run. simpl.
  match goal with
  | |- context [range w ?l ?s1] =>
      destruct (range_turns w l s1) as (new & s' & Hr & Hts); rewrite Hr
  end.
  destruct (turns_table _ _ _ _ _ Hts) as (Ht & Ho & Hl).
  destruct (turns_calls _ _ _ _ _ Hts) as (cs & Hcs & _).
  pose proof (turns_Forall2 w (row_of_entry w) _ _ _ _ (turn_row_of_entry w) Hts) as HF.
  assert (Hn : col_Name <$> new = (MapRange w connections).*1).
  { apply Forall2_fmap_eq. eapply Forall2_impl; [exact HF|]. by intros e row (? & _). }
  exists new, cs, {| calls := calls s'; t := t s'; stdout := stdout s' ++ [t s'] |}.
  simpl in *. repeat split; try done.
  - by rewrite Ho.
  - by rewrite Hn, (MapRange_perm w connections).
  - by rewrite Hl, (MapRange_perm w connections), length_map_to_list.
Qed.

Lemma keys_of_map {A : Type} (m : gmap string A) :
  (map_to_list m).*1 ≡ₚ elements (dom m).
Proof.
  apply NoDup_Permutation; [apply NoDup_fst_map_to_list|apply NoDup_elements|].
  intros k. rewrite elem_of_elements, elem_of_dom, list_elem_of_fmap. split.
  - intros [[k' x] [-> H]]. apply elem_of_map_to_list in H. by exists x.
  - intros [x H]. exists (k, x). split; [done|]. by apply elem_of_map_to_list.
Qed.

Lemma dom_foldr_insert {A : Type} (f : string -> A) (l : list string) :
  dom (foldr (fun k (m : gmap string A) => <[k := f k]> m) ∅ l) = list_to_set l.
Proof.
  induction l as [|k l IH]; simpl; [apply dom_empty_L|]. by rewrite dom_insert_L, IH.
Qed.

Lemma parseConfig_dom (w : World) (configPath : string) (v : Viper) :
  ReadInConfig w configPath = Ok v ->
  exists connections,
    parseConfig w configPath = Ok connections /\
    dom connections = GetStringMap v "check.connections".
Proof.
  intros Hr. unfold parseConfig. rewrite Hr. cbv zeta. eexists. split; [reflexivity|].
  rewrite (dom_foldr_insert _ (elements (GetStringMap v "check.connections"))).
  apply list_to_set_elements_L.
Qed.

(** X12. When the configuration file is read, [RunE] returns no error,
    whatever the probes returned.  It starts a fresh table, whose header is
    Name, Type, Description, Status and whose rows are one for each key
    under check.connections, renders that table once, and only adds to the
    log of library calls. *)
Theorem RunE_report (w : World) (v : Viper) (s : State) :
  ReadInConfig w "cmd/default.yaml" = Ok v ->
  exists new cs s',
    RunE w s = Done None s' /\
    t s' = {| header := [["Name"; "Type"; "Description"; "Status"]]; rows := new |} /\
    stdout s' = stdout s ++ [t s'] /\
    calls s' = calls s ++ cs /\
    col_Name <$> new ≡ₚ elements (GetStringMap v "check.connections") /\
    length new = size (GetStringMap v "check.connections").
Proof.
  intros Hr. destruct (parseConfig_dom w _ v Hr) as (connections & Hp & Hd).
  destruct (RunE_of_connections w connections s Hp)
    as (new & cs & s' & HR & Ht & Ho & Hc & Hn & Hl).
  exists new, cs, s'. repeat split; try done.
  - by rewrite Hn, keys_of_map, Hd.
  - by rewrite Hl, <- Hd, size_dom.
Qed.

Lemma RunE_report_witness :
  exists new cs s',
    RunE plain s0 = Done None s' /\
    t s' = {| header := [["Name"; "Type"; "Description"; "Status"]]; rows := new |} /\
    stdout s' = stdout s0 ++ [t s'] /\
    calls s' = calls s0 ++ cs /\
    col_Name <$> new ≡ₚ elements (GetStringMap sample_Viper "check.connections") /\
    length new = size (GetStringMap sample_Viper "check.connections").
Proof.
  exact (RunE_report plain sample_Viper s0 eq_refl).
Defined.

(** ** What the report depends on *)

(** A probe attempt reads nothing of the state but the log of calls. *)
Lemma CheckConnection_calls_only (w : World) (i : Connection.t) (s s2 : State) :
  calls s = calls s2 ->
  exists res cs,
    Connection.CheckConnection w i s = Done res (add_calls cs s) /\
    Connection.CheckConnection w i s2 = Done res (add_calls cs s2).
Proof.
  intros H. destruct i as [c|c|c|c]; simpl.
  - rewrite !MySQL_CheckConnection_unfold, <- H. destruct (sql_Open _ _ _ _); eauto.
  - rewrite !HTTP_CheckConnection_unfold, <- H. destruct (client_Get _ _ _ _); eauto.
  - rewrite !Redis_CheckConnection_unfold, <- H. eauto.
  - rewrite !PubSub_CheckConnection_unfold, <- H. destruct (pubsub_NewClient _ _ _ _); eauto.
Qed.

Lemma loop_body_Method (w : World) (name : string) (m : string) (c : ConnectionConfig.t)
  (s s2 : State) :
  calls s = calls s2 ->
  exists row row' cs,
    loop_body w name c s = Done tt (add_row row (add_calls cs s)) /\
    loop_body w name (with_Method m c) s2 = Done tt (add_row row' (add_calls cs s2)) /\
    col_Status row = col_Status row'.
Proof.
  intros H. unfold loop_body, createResource. simpl.
  assert (Hskip : forall (row row' : Row) (s s2 : State),
             col_Status row = col_Status row' ->
             exists r r' cs,
               Done tt (add_row row s) = Done tt (add_row r (add_calls cs s)) /\
               Done tt (add_row row' s2) = Done tt (add_row r' (add_calls cs s2)) /\
               col_Status r = col_Status r').
  { intros row row' x x2 Hst. exists row, row', []. by rewrite !add_calls_nil. }
  assert (Hprobe : forall (i : Connection.t) (ty d d' : string),
             exists row row' cs,
               (err ← Connection.CheckConnection w i;
                match err with
                | Some err => AppendRow [name; ty; d; Sprint w text.FgRed ("Failed: " +:+ err)]
                | None => AppendRow [name; ty; d; Sprint w text.FgGreen "Connected"]
                end) s = Done tt (add_row row (add_calls cs s)) /\
               (err ← Connection.CheckConnection w i;
                match err with
                | Some err => AppendRow [name; ty; d'; Sprint w text.FgRed ("Failed: " +:+ err)]
                | None => AppendRow [name; ty; d'; Sprint w text.FgGreen "Connected"]
                end) s2 = Done tt (add_row row' (add_calls cs s2)) /\
               col_Status row = col_Status row').
  { intros i ty d d'. destruct (CheckConnection_calls_only w i s s2 H) as (res & cs & H1 & H2).
    rewrite !bind_unfold, H1, H2. destruct res; eexists _, _, cs; by repeat split. }
  destruct (String.eqb (ConnectionConfig.Type_ c) "mysql").
  { destruct (ConnectionConfig.IsChecked c); simpl; [apply Hprobe|by apply Hskip]. }
  destruct (String.eqb (ConnectionConfig.Type_ c) "http").
  { destruct (ParseDuration w _) as [d|err]; [|by apply Hskip].
    destruct (ConnectionConfig.IsChecked c); simpl; [|by apply Hskip].
    unfold Config_CheckConnection, Config_GetDescription. simpl.
    rewrite !bind_unfold, !HTTP_CheckConnection_unfold. simpl. rewrite <- H.
    destruct (client_Get w _ _ _) as [code|err]; [destruct (code >=? 400)|];
      eexists _, _, _; by repeat split. }
  destruct (String.eqb (ConnectionConfig.Type_ c) "redis").
  { destruct (ConnectionConfig.IsChecked c); simpl; [apply Hprobe|by apply Hskip]. }
  destruct (String.eqb (ConnectionConfig.Type_ c) "pubsub").
  { destruct (ConnectionConfig.IsChecked c); simpl; [apply Hprobe|by apply Hskip]. }
  by apply Hskip.
Qed.

(** X13. The method of an http descriptor has no effect on what is
    probed: the HTTP probe makes the same GET and returns the same result
    whatever its Method; and two runs whose descriptors differ only in
    their method make the same library calls and give the same Status
    cells, row by row. *)
Theorem method_is_ignored_by_the_probe (w : World) :
  (forall URL Method Method' Timeout s,
      HTTPConfig.CheckConnection w (HTTPConfig.mk URL Method Timeout) s =
      HTTPConfig.CheckConnection w (HTTPConfig.mk URL Method' Timeout) s) /\
  (forall entries entries' s,
      Forall2 (fun entry entry' =>
                 entry'.1 = entry.1 /\ exists m, entry'.2 = with_Method m entry.2)
              entries entries' ->
      exists new new' s1 s2,
        range w entries s = Done tt s1 /\
        t s1 = {| header := header (t s); rows := rows (t s) ++ new |} /\
        range w entries' s = Done tt s2 /\
        t s2 = {| header := header (t s); rows := rows (t s) ++ new' |} /\
        calls s1 = calls s2 /\
        col_Status <$> new = col_Status <$> new').
Proof.
  split.
  - intros. by rewrite !HTTP_CheckConnection_unfold.
  - intros entries entries' s HF.
    assert (Hgen : forall sa sb, calls sa = calls sb ->
              exists new new' s1 s2,
                range w entries sa = Done tt s1 /\
                t s1 = {| header := header (t sa); rows := rows (t sa) ++ new |} /\
                range w entries' sb = Done tt s2 /\
                t s2 = {| header := header (t sb); rows := rows (t sb) ++ new' |} /\
                calls s1 = calls s2 /\
                col_Status <$> new = col_Status <$> new');
      [|by apply Hgen].
    induction HF as [|[n c] [n' c'] l l' (Hn & m & Hc) _ IH]; intros sa sb Hab.
    + exists [], [], sa, sb. simpl. rewrite !app_nil_r.
      destruct sa as [? [] ?], sb as [? [] ?]. by repeat split.
    + simpl in Hn, Hc. subst n' c'.
      destruct (loop_body_Method w n m c sa sb Hab) as (row & row' & cs & H1 & H2 & Hst).
      destruct (IH (add_row row (add_calls cs sa)) (add_row row' (add_calls cs sb)))
        as (new & new' & s1 & s2 & Hr1 & Ht1 & Hr2 & Ht2 & Hcalls & Hsts).
      { simpl. by rewrite Hab. }
      exists (row :: new), (row' :: new'), s1, s2.
      change (range w ((n, c) :: l)) with (loop_body w n c ;; range w l).
      change (range w ((n, with_Method m c) :: l')) with
        (loop_body w n (with_Method m c) ;; range w l').
      rewrite !bind_unfold, H1, H2, Ht1, Ht2, !fmap_cons, Hst, Hsts. simpl.
      rewrite <- !app_assoc. by repeat split.
Qed.

Lemma method_is_ignored_by_the_probe_witness :
  exists new new' s1 s2,
    range plain [("web", descriptor "http" true)] s0 = Done tt s1 /\
    t s1 = {| header := header (t s0); rows := rows (t s0) ++ new |} /\
    range plain [("web", with_Method "DELETE" (descriptor "http" true))] s0 = Done tt s2 /\
    t s2 = {| header := header (t s0); rows := rows (t s0) ++ new' |} /\
    calls s1 = calls s2 /\
    col_Status <$> new = col_Status <$> new'.
Proof.
  apply (proj2 (method_is_ignored_by_the_probe plain)).
  repeat constructor; simpl; by eexists.
Defined.

Lemma createResource_ParseDuration (w w' : World) (name name' : string)
  (c : ConnectionConfig.t) :
  (forall x, ParseDuration w x = ParseDuration w' x) ->
  createResource w name c = createResource w' name' c.
Proof. intros H. unfold createResource. by rewrite H. Qed.

(** X14. Only the Status column depends on the outside world.  In two
    runs over the same entries, in worlds that parse durations alike but
    may answer every library call differently and from different states,
    the rows agree on Name, Type and Description, row by row. *)
Theorem columns_from_configuration (w w' : World)
  (entries : list (string * ConnectionConfig.t)) (s s' : State) :
  (forall x, ParseDuration w x = ParseDuration w' x) ->
  exists new new' s1 s2,
    range w entries s = Done tt s1 /\
    t s1 = {| header := header (t s); rows := rows (t s) ++ new |} /\
    range w' entries s' = Done tt s2 /\
    t s2 = {| header := header (t s'); rows := rows (t s') ++ new' |} /\
    Forall2 (fun row row' =>
               col_Name row = col_Name row' /\ col_Type row = col_Type row' /\
               col_Description row = col_Description row') new new'.
Proof.
  intros Hpd.
  destruct (range_turns w entries s) as (new & s1 & Hr & Hts).
  destruct (range_turns w' entries s') as (new' & s2 & Hr' & Hts').
  destruct (turns_table _ _ _ _ _ Hts) as (Ht & _ & _).
  destruct (turns_table _ _ _ _ _ Hts') as (Ht' & _ & _).
  exists new, new', s1, s2. repeat split; try done.
  pose (P := fun (x : World) (entry : string * ConnectionConfig.t) (row : Row) =>
               col_Name row = entry.1 /\ col_Type row = ConnectionConfig.Type_ entry.2 /\
               col_Description row = description_of x entry.1 entry.2).
  assert (HP : forall x name connConfig a b row,
             turn x name connConfig a b row -> P x (name, connConfig) row).
  { intros x name connConfig a b row Hturn.
    destruct (turn_row_of_entry _ _ _ _ _ _ Hturn) as (? & ? & _).
    split; [done|]. split; [done|]. by eapply turn_description. }
  pose proof (turns_Forall2 w (P w) _ _ _ _ (HP w) Hts) as HF.
  pose proof (turns_Forall2 w' (P w') _ _ _ _ (HP w') Hts') as HF'.
  clear -HF HF' Hpd. revert new' HF'.
  induction HF as [|e row l k (Hn & Hty & Hd) _ IH]; intros new' HF';
    inversion HF' as [|? row' ? k' (Hn' & Hty' & Hd') HF'' ]; subst; constructor.
  - rewrite Hn, Hn', Hty, Hty', Hd, Hd'. repeat split.
    unfold description_of. by rewrite (createResource_ParseDuration w w' e.1 e.1 e.2 Hpd).
  - by apply IH.
Qed.

Lemma columns_from_configuration_witness :
  exists new new' s1 s2,
    range plain [("db1", descriptor "mysql" true); ("web", descriptor "http" false)] s0 =
      Done tt s1 /\
    t s1 = {| header := header (t s0); rows := rows (t s0) ++ new |} /\
    range ansi [("db1", descriptor "mysql" true); ("web", descriptor "http" false)]
      (add_calls [RedisPing] s0) = Done tt s2 /\
    t s2 = {| header := header (t (add_calls [RedisPing] s0));
              rows := rows (t (add_calls [RedisPing] s0)) ++ new' |} /\
    Forall2 (fun row row' =>
               col_Name row = col_Name row' /\ col_Type row = col_Type row' /\
               col_Description row = col_Description row') new new'.
Proof.
  exact (columns_from_configuration plain ansi
           [("db1", descriptor "mysql" true); ("web", descriptor "http" false)]
           s0 (add_calls [RedisPing] s0) (fun x => eq_refl)).
Defined.

(** * The [table-summary] command *)

Example table_summary_run :
  TableSummary.RunE TableSummary.sample_Database [] =
  (None,
   [TableSummary.Open "mysql" "root:secret@tcp(unreachable:3306)/";
    TableSummary.Query "SHOW TABLES";
    TableSummary.LogPrintf "failed to scan table name: sql: Scan error";
    TableSummary.RowsClose; TableSummary.DBClose;
    TableSummary.Printf
      (TableSummary.LF +:+ "连接名: db1" +:+ TableSummary.LF
         +:+ "DSN: root:secret@tcp(unreachable:3306)/" +:+ TableSummary.LF);
    TableSummary.Open "mysql" "root:secret@tcp(unreachable:3306)/";
    TableSummary.QueryRowScan "SELECT COUNT(*) FROM `users`";
    TableSummary.DBClose;
    TableSummary.Open "mysql" "root:secret@tcp(unreachable:3306)/";
    TableSummary.QueryRowScan "SELECT COUNT(*) FROM `odd`name`";
    TableSummary.DBClose;
    TableSummary.Render [["表名称"; "记录总数"]] [("users", 42); ("odd`name", -1)]]).
Proof. vm_compute. reflexivity. Qed.

Lemma T_bind_unfold {A B : Type} (m : TableSummary.T A) (f : A -> TableSummary.T B)
  (h : list TableSummary.Event) :
  (m ≫= f) h = let (a, h') := m h in f a h'.
Proof. reflexivity. Qed.

Lemma call_unfold {A : Type} (e : TableSummary.Event)
  (answer : list TableSummary.Event -> A) (h : list TableSummary.Event) :
  TableSummary.call e answer h = (answer h, h ++ [e]).
Proof. reflexivity. Qed.

Ltac trun :=
  repeat progress
    (unfold TableSummary.emit; rewrite ?T_bind_unfold, ?call_unfold; cbv beta iota;
     rewrite <- ?app_assoc; simpl app).

Lemma opens_app (h1 h2 : list TableSummary.Event) :
  TableSummary.opens (h1 ++ h2) = (TableSummary.opens h1 + TableSummary.opens h2)%nat.
Proof. unfold TableSummary.opens. by rewrite List.filter_app, length_app. Qed.

Lemma closes_app (h1 h2 : list TableSummary.Event) :
  TableSummary.closes (h1 ++ h2) = (TableSummary.closes h1 + TableSummary.closes h2)%nat.
Proof. unfold TableSummary.closes. by rewrite List.filter_app, length_app. Qed.

Lemma renders_app (h1 h2 : list TableSummary.Event) :
  TableSummary.renders (h1 ++ h2) = (TableSummary.renders h1 + TableSummary.renders h2)%nat.
Proof. unfold TableSummary.renders. by rewrite List.filter_app, length_app. Qed.

Lemma scan_rows_unfold (pending : list (result string)) (tables : list string)
  (h : list TableSummary.Event) :
  TableSummary.scan_rows pending tables h =
  (tables ++ TableSummary.scanned pending, h ++ TableSummary.scan_logs pending).
Proof.
  revert tables h. induction pending as [|[table|err] rest IH]; intros tables h; simpl.
  - by rewrite !app_nil_r.
  - rewrite IH. unfold TableSummary.scanned, TableSummary.scan_logs. simpl.
    by rewrite <- app_assoc.
  - trun. rewrite IH. unfold TableSummary.scan_logs. simpl. by rewrite <- app_assoc.
Qed.

Lemma scan_logs_are_logs (pending : list (result string)) :
  Forall (fun e => exists message, e = TableSummary.LogPrintf message)
         (TableSummary.scan_logs pending).
Proof.
  induction pending as [|[table|err] rest IH]; [constructor|exact IH|].
  constructor; [by eexists|exact IH].
Qed.

Lemma logs_count_nothing (logs : list TableSummary.Event) :
  Forall (fun e => exists message, e = TableSummary.LogPrintf message) logs ->
  TableSummary.opens logs = 0%nat /\ TableSummary.closes logs = 0%nat /\
  TableSummary.renders logs = 0%nat.
Proof.
  induction 1 as [|e l [message ->] _ (IHo & IHc & IHr)]; [done|].
  unfold TableSummary.opens, TableSummary.closes, TableSummary.renders in *. simpl.
  by rewrite IHo, IHc, IHr.
Qed.

(** The lines logged between the query and the closing of the rows. *)
Lemma GetTables_unfold (w : TableSummary.Database) (c : TableSummary.Connect)
  (h : list TableSummary.Event) :
  let open_call := TableSummary.Open "mysql" (TableSummary.DSN c) in
  TableSummary.GetTables w c h =
  match TableSummary.sql_Open w h "mysql" (TableSummary.DSN c) with
  | Some err =>
      (None, h ++ [open_call;
                   TableSummary.LogPrintf ("failed to connect to MySQL: " +:+ err)])
  | None =>
      match TableSummary.db_Query w (h ++ [open_call]) "SHOW TABLES" with
      | Err err =>
          (None, h ++ [open_call; TableSummary.Query "SHOW TABLES";
                       TableSummary.LogPrintf ("failed to query tables: " +:+ err);
                       TableSummary.DBClose])
      | Ok rows =>
          (Some (TableSummary.scanned (TableSummary.scans rows)),
           h ++ [open_call; TableSummary.Query "SHOW TABLES"]
             ++ (TableSummary.scan_logs (TableSummary.scans rows)
                   ++ match TableSummary.rows_Err rows with
                      | Some err =>
                          [TableSummary.LogPrintf ("row iteration error: " +:+ err)]
                      | None => []
                      end)
             ++ [TableSummary.RowsClose; TableSummary.DBClose])
      end
  end.
Proof.
  cbv zeta. unfold TableSummary.GetTables. trun.
  destruct (TableSummary.sql_Open w h _ _) as [err|]; [by trun|].
  trun. destruct (TableSummary.db_Query w _ _) as [rows|err]; [|by trun].
  rewrite T_bind_unfold, scan_rows_unfold. cbv beta iota. rewrite T_bind_unfold.
  destruct (TableSummary.rows_Err rows) as [err|]; trun; simpl; trun;
    rewrite ?app_nil_r; reflexivity.
Qed.

Lemma GetTableCount_unfold (w : TableSummary.Database) (c : TableSummary.Connect)
  (tableName : string) (h : list TableSummary.Event) :
  let open_call := TableSummary.Open "mysql" (TableSummary.DSN c) in
  let query := "SELECT COUNT(*) FROM `" +:+ tableName +:+ "`" in
  TableSummary.GetTableCount w c tableName h =
  match TableSummary.sql_Open w h "mysql" (TableSummary.DSN c) with
  | Some _ => (-1, h ++ [open_call])
  | None =>
      (match TableSummary.db_QueryRow_Scan w (h ++ [open_call]) query with
       | Err _ => -1
       | Ok count => count
       end,
       h ++ [open_call; TableSummary.QueryRowScan query; TableSummary.DBClose])
  end.
Proof.
  cbv zeta. unfold TableSummary.GetTableCount. trun.
  destruct (TableSummary.sql_Open w h _ _) as [err|]; [done|]. by trun.
Qed.

Example scanned_skips_failed_scans :
  TableSummary.scanned [Ok "users"; Err "sql: Scan error"; Ok "orders"] = ["users"; "orders"] /\
  TableSummary.scan_logs [Ok "users"; Err "sql: Scan error"; Ok "orders"] =
    [TableSummary.LogPrintf "failed to scan table name: sql: Scan error"].
Proof. split; reflexivity. Qed.

(** X15. [GetTables] opens one handle.  When opening fails it logs the
    connect error and returns nil without querying or closing; when the
    query SHOW TABLES fails it logs that, closes the handle and returns
    nil.  Otherwise it returns the names whose scan succeeded, in order; its
    events are the open, the query, one log line for each row whose scan
    failed (that row is skipped, not fatal), one log line for the error of
    the iteration if there is one, then the closing of the rows and of the
    handle. *)
Theorem GetTables_result (w : TableSummary.Database) (c : TableSummary.Connect)
  (h : list TableSummary.Event) :
  let open_call := TableSummary.Open "mysql" (TableSummary.DSN c) in
  let opened := TableSummary.sql_Open w h "mysql" (TableSummary.DSN c) in
  let queried := TableSummary.db_Query w (h ++ [open_call]) "SHOW TABLES" in
  exists res evs,
    TableSummary.GetTables w c h = (res, h ++ evs) /\
    TableSummary.opens evs = 1%nat /\
    (forall err, opened = Some err ->
       res = None /\
       evs = [open_call; TableSummary.LogPrintf ("failed to connect to MySQL: " +:+ err)]) /\
    (forall err, opened = None -> queried = Err err ->
       res = None /\
       evs = [open_call; TableSummary.Query "SHOW TABLES";
              TableSummary.LogPrintf ("failed to query tables: " +:+ err);
              TableSummary.DBClose]) /\
    (forall rows, opened = None -> queried = Ok rows ->
       res = Some (omap (fun r => match r with Ok table => Some table | Err _ => None end)
                        (TableSummary.scans rows)) /\
       evs = [open_call; TableSummary.Query "SHOW TABLES"]
               ++ (omap (fun r =>
                           match r with
                           | Ok _ => None
                           | Err err =>
                               Some (TableSummary.LogPrintf
                                       ("failed to scan table name: " +:+ err))
                           end) (TableSummary.scans rows)
                     ++ match TableSummary.rows_Err rows with
                        | Some err =>
                            [TableSummary.LogPrintf ("row iteration error: " +:+ err)]
                        | None => []
                        end)
               ++ [TableSummary.RowsClose; TableSummary.DBClose]).
Proof.
  cbv zeta. pose proof (GetTables_unfold w c h) as Hu. cbv zeta in Hu. rewrite Hu.
  destruct (TableSummary.sql_Open w h _ _) as [err|].
  { eexists _, _. split; [reflexivity|]. split; [reflexivity|].
    repeat split; try done; intuition congruence. }
  destruct (TableSummary.db_Query w _ _) as [rows|err].
  - set (middle := TableSummary.scan_logs (TableSummary.scans rows) ++ _).
    assert (Hmiddle : Forall (fun e => exists message, e = TableSummary.LogPrintf message)
                             middle).
    { apply Forall_app. split; [apply scan_logs_are_logs|].
      destruct (TableSummary.rows_Err rows); repeat constructor. by eexists. }
    destruct (logs_count_nothing _ Hmiddle) as (Ho & Hc & _).
    eexists _, _. split; [reflexivity|]. split.
    { rewrite !opens_app, Ho. reflexivity. }
    split; [done|]. split; [done|]. intros rows' _ Hq. inversion Hq. subst rows'.
    split; reflexivity.
  - eexists _, _. split; [reflexivity|]. split; [reflexivity|].
    repeat split; try done; intuition congruence.
Qed.

(** X16. [GetTableCount] opens its own handle and asks for
    SELECT COUNT over the table name put between backquotes as it is.  It
    returns -1 when the handle cannot be opened (and then neither queries
    nor closes) and when the query or its scan fails; otherwise the count.
    An opened handle is closed in both cases. *)
Theorem GetTableCount_result (w : TableSummary.Database) (c : TableSummary.Connect)
  (tableName : string) (h : list TableSummary.Event) :
  let open_call := TableSummary.Open "mysql" (TableSummary.DSN c) in
  let opened := TableSummary.sql_Open w h "mysql" (TableSummary.DSN c) in
  let query := "SELECT COUNT(*) FROM `" +:+ tableName +:+ "`" in
  let counted := TableSummary.db_QueryRow_Scan w (h ++ [open_call]) query in
  exists count evs,
    TableSummary.GetTableCount w c tableName h = (count, h ++ evs) /\
    (forall err, opened = Some err -> count = -1 /\ evs = [open_call]) /\
    (opened = None ->
       evs = [open_call; TableSummary.QueryRowScan query; TableSummary.DBClose]) /\
    (forall err, opened = None -> counted = Err err -> count = -1) /\
    (forall n, opened = None -> counted = Ok n -> count = n).
Proof.
  cbv zeta. pose proof (GetTableCount_unfold w c tableName h) as Hu. cbv zeta in Hu.
  rewrite Hu. destruct (TableSummary.sql_Open w h _ _) as [err|].
  - eexists _, _. split; [reflexivity|]. repeat split; try done; intuition congruence.
  - destruct (TableSummary.db_QueryRow_Scan w _ _) as [n|err];
      eexists _, _; (split; [reflexivity|]); repeat split; try done; intuition congruence.
Qed.

Lemma GetTables_counts (w : TableSummary.Database) (c : TableSummary.Connect)
  (h : list TableSummary.Event) :
  exists res evs,
    TableSummary.GetTables w c h = (res, h ++ evs) /\
    TableSummary.opens evs = 1%nat /\ (TableSummary.closes evs <= 1)%nat /\
    TableSummary.renders evs = 0%nat.
Proof.
  pose proof (GetTables_unfold w c h) as Hu. cbv zeta in Hu. rewrite Hu.
  destruct (TableSummary.sql_Open w h _ _) as [err|].
  { eexists _, _. split; [reflexivity|]. repeat split; unfold TableSummary.closes; simpl; lia. }
  destruct (TableSummary.db_Query w _ _) as [rows|err].
  - set (middle := TableSummary.scan_logs (TableSummary.scans rows) ++ _).
    assert (Hmiddle : Forall (fun e => exists message, e = TableSummary.LogPrintf message)
                             middle).
    { apply Forall_app. split; [apply scan_logs_are_logs|].
      destruct (TableSummary.rows_Err rows); repeat constructor. by eexists. }
    destruct (logs_count_nothing _ Hmiddle) as (Ho & Hc & Hr).
    eexists _, _. split; [reflexivity|].
    rewrite !opens_app, !closes_app, !renders_app, Ho, Hc, Hr.
    repeat split; unfold TableSummary.closes; simpl; lia.
  - eexists _, _. split; [reflexivity|]. repeat split. unfold TableSummary.closes. simpl. lia.
Qed.

Lemma GetTableCount_counts (w : TableSummary.Database) (c : TableSummary.Connect)
  (tableName : string) (h : list TableSummary.Event) :
  exists count evs,
    TableSummary.GetTableCount w c tableName h = (count, h ++ evs) /\
    TableSummary.opens evs = 1%nat /\ (TableSummary.closes evs <= 1)%nat /\
    TableSummary.renders evs = 0%nat.
Proof.
  pose proof (GetTableCount_unfold w c tableName h) as Hu. cbv zeta in Hu. rewrite Hu.
  destruct (TableSummary.sql_Open w h _ _) as [err|];
    eexists _, _; (split; [reflexivity|]); repeat split;
    unfold TableSummary.closes; simpl; lia.
Qed.

Lemma count_tables_result (w : TableSummary.Database) (connect : TableSummary.Connect)
  (tables : list string) (rows : list (string * Z)) (h : list TableSummary.Event) :
  exists rows' evs,
    TableSummary.count_tables w connect tables rows h = (rows ++ rows', h ++ evs) /\
    rows'.*1 = tables /\
    TableSummary.opens evs = length tables /\
    (TableSummary.closes evs <= length tables)%nat /\
    TableSummary.renders evs = 0%nat /\
    counted w connect tables h rows' evs.
Proof.
  revert rows h. induction tables as [|tbl rest IH]; intros rows h.
  - exists [], []. simpl. rewrite !app_nil_r. repeat split; constructor.
  - destruct (GetTableCount_counts w connect tbl h) as (count & evs1 & H1 & Ho1 & Hc1 & Hr1).
    destruct (IH (rows ++ [(tbl, count)]) (h ++ evs1))
      as (rows' & evs2 & H2 & Hn & Ho2 & Hc2 & Hr2 & Hcount).
    exists ((tbl, count) :: rows'), (evs1 ++ evs2).
    change (TableSummary.count_tables w connect (tbl :: rest) rows) with
      (TableSummary.GetTableCount w connect tbl ≫=
         fun count => TableSummary.count_tables w connect rest (rows ++ [(tbl, count)])).
    rewrite T_bind_unfold, H1, H2, <- !app_assoc, fmap_cons, Hn, opens_app, closes_app,
      renders_app, Ho1, Ho2, Hr1, Hr2. simpl. repeat split; [lia|].
    by econstructor.
Qed.

Lemma summary_branch (w : TableSummary.Database) (name dsn : string)
  (h : list TableSummary.Event) :
  exists res before after rows,
    TableSummary.GetTables w (TableSummary.NewConnect dsn) h = (res, h ++ before) /\
    (tables ← TableSummary.GetTables w (TableSummary.NewConnect dsn);
     TableSummary.emit
       (TableSummary.Printf
          (TableSummary.LF +:+ "连接名: " +:+ name +:+ TableSummary.LF
             +:+ "DSN: " +:+ dsn +:+ TableSummary.LF));;
     rows ← TableSummary.count_tables w (TableSummary.NewConnect dsn)
              (default [] tables) [];
     TableSummary.emit (TableSummary.Render [["表名称"; "记录总数"]] rows)) h =
      (tt, h ++ before
             ++ [TableSummary.Printf
                   (TableSummary.LF +:+ "连接名: " +:+ name +:+ TableSummary.LF
                      +:+ "DSN: " +:+ dsn +:+ TableSummary.LF)]
             ++ after
             ++ [TableSummary.Render [["表名称"; "记录总数"]] rows]) /\
    rows.*1 = default [] res /\
    TableSummary.opens (before ++ after) = (1 + length rows)%nat /\
    (TableSummary.closes (before ++ after) <= TableSummary.opens (before ++ after))%nat /\
    TableSummary.renders (before ++ after) = 0%nat /\
    counted w (TableSummary.NewConnect dsn) (default [] res)
      (h ++ before
         ++ [TableSummary.Printf
               (TableSummary.LF +:+ "连接名: " +:+ name +:+ TableSummary.LF
                  +:+ "DSN: " +:+ dsn +:+ TableSummary.LF)])
      rows after.
Proof.
  destruct (GetTables_counts w (TableSummary.NewConnect dsn) h)
    as (res & before & Hg & Hob & Hcb & Hrb).
  rewrite T_bind_unfold, Hg. cbv beta iota. trun.
  match goal with
  | |- context [TableSummary.count_tables w ?c ?tables [] ?h'] =>
      destruct (count_tables_result w c tables [] h')
        as (rows & after & Hc & Hn & Hoa & Hca & Hra & Hcount)
  end.
  rewrite Hc. simpl. exists res, before, after, rows.
  split; [done|]. split. { rewrite call_unfold, <- !app_assoc. reflexivity. } split; [done|].
  rewrite opens_app, closes_app, renders_app, Hob, Hoa, Hrb, Hra, <- Hn, length_fmap.
  split; [done|]. rewrite <- Hn, length_fmap in Hca. split; [lia|]. split; [done|].
  rewrite Hn. exact Hcount.
Qed.

(** X17. A configured connection whose type is not mysql is passed
    over by [table-summary]: nothing is opened, printed or rendered for
    it. *)
Theorem summary_skips_other_kinds (w : TableSummary.Database) (v : Viper) (name : string)
  (h : list TableSummary.Event) :
  GetString v (("check.connections." +:+ name) +:+ ".type") <> "mysql" ->
  TableSummary.loop_body w v name h = (tt, h).
Proof.
  intros Hne. unfold TableSummary.loop_body. cbv zeta.
  by apply String.eqb_neq in Hne as ->.
Qed.

Lemma summary_skips_other_kinds_witness :
  TableSummary.loop_body TableSummary.sample_Database TableSummary.sample_settings
    "cache1" [] = (tt, []).
Proof.
  apply (summary_skips_other_kinds TableSummary.sample_Database
           TableSummary.sample_settings "cache1" []).
  vm_compute. discriminate.
Defined.

(** X18. For a connection of type mysql, [table-summary] lists the
    tables over the DSN user:password@tcp(host:port)/database, then prints
    the connection name and that DSN, password included, then counts
    every listed table with [GetTableCount], in the order listed and each
    from the history the previous one left, and renders one table with the
    two-column header and, for each listed table, the row of its name and
    the count returned for it.  It opens one handle for the listing and one
    more per table, and closes no more than it opens. *)
Theorem summary_of_a_mysql_entry (w : TableSummary.Database) (v : Viper) (name : string)
  (h : list TableSummary.Event) :
  let prefix := "check.connections." +:+ name in
  let dsn :=
    GetString v (prefix +:+ ".user") +:+ ":" +:+ GetString v (prefix +:+ ".password")
      +:+ "@tcp(" +:+ GetString v (prefix +:+ ".host") +:+ ":"
      +:+ fmt_d (GetInt v (prefix +:+ ".port")) +:+ ")/"
      +:+ GetString v (prefix +:+ ".database") in
  let printed :=
    TableSummary.Printf
      (TableSummary.LF +:+ "连接名: " +:+ name +:+ TableSummary.LF
         +:+ "DSN: " +:+ dsn +:+ TableSummary.LF) in
  GetString v (prefix +:+ ".type") = "mysql" ->
  exists res before after rows,
    TableSummary.GetTables w (TableSummary.NewConnect dsn) h = (res, h ++ before) /\
    TableSummary.loop_body w v name h =
      (tt, h ++ before ++ [printed] ++ after
             ++ [TableSummary.Render [["表名称"; "记录总数"]] rows]) /\
    counted w (TableSummary.NewConnect dsn) (default [] res)
      (h ++ before ++ [printed]) rows after /\
    rows.*1 = default [] res /\
    TableSummary.opens (before ++ after) = (1 + length rows)%nat /\
    (TableSummary.closes (before ++ after) <= TableSummary.opens (before ++ after))%nat.
Proof.
  cbv zeta. intros Hty. unfold TableSummary.loop_body. cbv zeta.
  rewrite Hty, String.eqb_refl. simpl negb. cbv iota.
  match goal with
  | |- context [TableSummary.NewConnect ?dsn] =>
      destruct (summary_branch w name dsn h)
        as (res & before & after & rows & Hg & Hb & Hn & Ho & Hc & _ & Hcount)
  end.
  by exists res, before, after, rows.
Qed.

Lemma summary_of_a_mysql_entry_witness :
  exists res before after rows,
    TableSummary.GetTables TableSummary.sample_Database
      (TableSummary.NewConnect "root:secret@tcp(unreachable:3306)/") [] =
      (res, [] ++ before) /\
    TableSummary.loop_body TableSummary.sample_Database TableSummary.sample_settings
      "db1" [] =
      (tt, [] ++ before
             ++ [TableSummary.Printf
                   (TableSummary.LF +:+ "连接名: " +:+ "db1" +:+ TableSummary.LF
                      +:+ "DSN: " +:+ "root:secret@tcp(unreachable:3306)/"
                      +:+ TableSummary.LF)]
             ++ after
             ++ [TableSummary.Render [["表名称"; "记录总数"]] rows]) /\
    counted TableSummary.sample_Database
      (TableSummary.NewConnect "root:secret@tcp(unreachable:3306)/") (default [] res)
      ([] ++ before
          ++ [TableSummary.Printf
                (TableSummary.LF +:+ "连接名: " +:+ "db1" +:+ TableSummary.LF
                   +:+ "DSN: " +:+ "root:secret@tcp(unreachable:3306)/"
                   +:+ TableSummary.LF)])
      rows after /\
    rows.*1 = default [] res /\
    TableSummary.opens (before ++ after) = (1 + length rows)%nat /\
    (TableSummary.closes (before ++ after) <= TableSummary.opens (before ++ after))%nat.
Proof.
  exact (summary_of_a_mysql_entry TableSummary.sample_Database
           TableSummary.sample_settings "db1" [] eq_refl).
Defined.

(** The rows and the events of counting two tables, the second of which
    cannot be counted. *)
Example counted_two_tables :
  counted TableSummary.sample_Database (TableSummary.NewConnect "dsn")
    ["users"; "odd`name"] []
    [("users", 42); ("odd`name", -1)]
    ([TableSummary.Open "mysql" "dsn";
      TableSummary.QueryRowScan "SELECT COUNT(*) FROM `users`"; TableSummary.DBClose]
       ++ [TableSummary.Open "mysql" "dsn";
           TableSummary.QueryRowScan "SELECT COUNT(*) FROM `odd`name`";
           TableSummary.DBClose] ++ []).
Proof. repeat (econstructor; [reflexivity|]). constructor. Qed.

Lemma filter_length_Permutation {A : Type} (f : A -> bool) (l k : list A) :
  l ≡ₚ k -> length (List.filter f l) = length (List.filter f k).
Proof.
  induction 1 as [|x l k _ IH|x y l|l k m _ IH1 _ IH2]; simpl.
  - done.
  - destruct (f x); simpl; by rewrite IH.
  - by destruct (f x), (f y).
  - by rewrite IH1.
Qed.

Lemma summary_range_result (w : TableSummary.Database) (v : Viper) (names : list string)
  (h : list TableSummary.Event) :
  exists evs,
    TableSummary.range w v names h = (tt, h ++ evs) /\
    TableSummary.renders evs = length (List.filter (TableSummary.is_mysql v) names) /\
    (Forall (fun name => TableSummary.is_mysql v name = false) names -> evs = []).
Proof.
  revert h. induction names as [|name rest IH]; intros h.
  - exists []. simpl. by rewrite app_nil_r.
  - change (TableSummary.range w v (name :: rest)) with
      (TableSummary.loop_body w v name ;; TableSummary.range w v rest).
    rewrite T_bind_unfold. simpl List.filter.
    destruct (TableSummary.is_mysql v name) eqn:Hm; unfold TableSummary.is_mysql in Hm.
    + unfold TableSummary.loop_body. cbv zeta. rewrite Hm.
      change (negb true) with false. cbv iota.
      match goal with
      | |- context [TableSummary.NewConnect ?dsn] =>
          destruct (summary_branch w name dsn h)
            as (res & before & after & rows & _ & Hb & _ & _ & _ & Hr & _)
      end.
      rewrite Hb. rewrite renders_app in Hr.
      match goal with
      | |- context [TableSummary.range w v rest ?h'] =>
          destruct (IH h') as (evs2 & H2 & Hr2 & _)
      end.
      rewrite H2. eexists. split; [by rewrite <- !app_assoc|]. split.
      * rewrite !renders_app, Hr2.
        assert (TableSummary.renders before = 0%nat) as -> by lia.
        assert (TableSummary.renders after = 0%nat) as -> by lia. reflexivity.
      * intros Hall. apply Forall_cons in Hall as [Hf _].
        unfold TableSummary.is_mysql in Hf. congruence.
    + unfold TableSummary.loop_body. cbv zeta. rewrite Hm. simpl.
      destruct (IH h) as (evs2 & H2 & Hr2 & Hnone).
      exists evs2. rewrite H2. split; [done|]. split; [done|].
      intros Hall. apply Forall_cons in Hall as [_ Hall]. by apply Hnone.
Qed.

(** X19. [table-summary] returns an error only when the configuration
    file cannot be read, and then does nothing.  Otherwise it returns no
    error, whatever the databases answered, and renders as many tables as
    there are configured connections of type mysql; with no such connection
    it does nothing at all. *)
Theorem table_summary_RunE (w : TableSummary.Database) (h : list TableSummary.Event) :
  (forall err,
      TableSummary.ReadInConfig w "cmd/default.yaml" = Err err ->
      TableSummary.RunE w h = (Some ("failed to read config file: " +:+ err), h)) /\
  (forall v,
      TableSummary.ReadInConfig w "cmd/default.yaml" = Ok v ->
      exists evs,
        TableSummary.RunE w h = (None, h ++ evs) /\
        TableSummary.renders evs =
          length (List.filter (TableSummary.is_mysql v)
                    (elements (GetStringMap v "check.connections"))) /\
        (Forall (fun name => TableSummary.is_mysql v name = false)
                (elements (GetStringMap v "check.connections")) ->
         evs = [])).
Proof.
  split.
  - intros err Hr. unfold TableSummary.RunE. by rewrite Hr.
  - intros v Hr. unfold TableSummary.RunE. rewrite Hr. cbv zeta.
    destruct (summary_range_result w v
                (TableSummary.KeysRange w (GetStringMap v "check.connections")) h)
      as (evs & He & Hn & Hnone).
    exists evs. rewrite T_bind_unfold, He. split; [done|]. split.
    + rewrite Hn. apply filter_length_Permutation, TableSummary.KeysRange_perm.
    + intros Hall. apply Hnone. by rewrite TableSummary.KeysRange_perm.
Qed.

Lemma table_summary_RunE_witness :
  TableSummary.RunE TableSummary.offline_Database [] =
    (Some "failed to read config file: open cmd/default.yaml: no such file or directory", []) /\
  exists evs,
    TableSummary.RunE TableSummary.sample_Database [] = (None, [] ++ evs) /\
    TableSummary.renders evs =
      length (List.filter (TableSummary.is_mysql TableSummary.sample_settings)
                (elements (GetStringMap TableSummary.sample_settings "check.connections"))).
Proof.
  split.
  - exact (proj1 (table_summary_RunE TableSummary.offline_Database [])
             "open cmd/default.yaml: no such file or directory" eq_refl).
  - destruct (proj2 (table_summary_RunE TableSummary.sample_Database [])
                TableSummary.sample_settings eq_refl) as (evs & He & Hn & _).
    exists evs. exact (conj He Hn).
Defined.
